(** * ocdeployer.images: image configuration parsing and image import

    A shallow embedding of [ocdeployer/images.py].

    - Configuration objects (the result of loading a YAML file) are Python
      values: [PyValue].  A Python [dict] is an association list, kept in
      insertion order, because [images.items()] is iterated in that order.
    - A Python call either returns or raises: [result].
    - [ImageImporter.do_import] and [import_images] run commands of the
      [oc] tool, write log records and read the class attribute
      [ImageImporter.imported_istags]: they are functions on an explicit
      [state], in the monad [M].
    - [oc] lives in [ocdeployer/utils.py]; it is a variable of the section
      [Images], as is Python's built-in [str()] on values that are not
      strings. *)

From Stdlib Require Import List String Ascii Bool ZArith.
Import ListNotations.
Open Scope string_scope.
Local Set Warnings "-register-all".

(** ** Python values and exceptions *)

(** The values a YAML configuration is made of.  Floats are left out: in
    this module they take the same branches as [PInt] (not a [str], not a
    [list], not a [dict], not iterable). *)
Inductive PyValue : Type :=
| PNone
| PBool (b : bool)
| PInt (z : Z)
| PStr (s : string)
| PList (l : list PyValue)
| PDict (d : list (PyValue * PyValue)).

Definition pydict : Type := list (PyValue * PyValue).

(** The exceptions that occur.  [ErrorReturnCode] is [sh.ErrorReturnCode];
    it carries the text [str(err.stderr)].  [PyException] stands for any
    other exception class, by name. *)
Inductive exn : Type :=
| ValueError (msg : string)
| TypeError (msg : string)
| KeyError (key : string)
| IndexError (msg : string)
| ErrorReturnCode (stderr : string)
| PyException (cls : string).

Inductive result (A : Type) : Type :=
| Ok (a : A)
| Raise (e : exn).
Arguments Ok {A} a.
Arguments Raise {A} e.

Definition rbind {A B : Type} (r : result A) (k : A -> result B) : result B :=
  match r with
  | Ok a => k a
  | Raise e => Raise e
  end.

Declare Scope result_scope.
Delimit Scope result_scope with result.
Notation "x <- r ;; k" := (rbind r (fun x => k))
  (at level 61, r at next level, right associativity) : result_scope.

(** ** Strings *)

(** [needle in hay] on two Python strings: [needle] occurs in [hay] as a
    substring. *)
Fixpoint str_in (needle hay : string) : bool :=
  if String.prefix needle hay then true
  else match hay with
       | EmptyString => false
       | String _ hay' => str_in needle hay'
       end.

(** [isinstance(v, str)] *)
Definition isinstance_str (v : PyValue) : bool :=
  match v with PStr _ => true | _ => false end.

(** [k == v] for a string [k]: a string equals no value of another type. *)
Definition str_eq_value (k : string) (v : PyValue) : bool :=
  match v with PStr s => String.eqb k s | _ => false end.

(** [needle in container] for a string [needle]: substring test on a
    string, membership on a list, key membership on a dict, [TypeError] on
    a value that is not iterable. *)
Definition py_str_in (needle : string) (container : PyValue) : result bool :=
  match container with
  | PStr hay => Ok (str_in needle hay)
  | PList l => Ok (existsb (str_eq_value needle) l)
  | PDict d => Ok (existsb (fun kv => str_eq_value needle (fst kv)) d)
  | PNone => Raise (TypeError "argument of type 'NoneType' is not iterable")
  | PBool _ => Raise (TypeError "argument of type 'bool' is not iterable")
  | PInt _ => Raise (TypeError "argument of type 'int' is not iterable")
  end.

(** ** Dictionaries *)

(** [k in d] *)
Definition dict_has (k : string) (d : pydict) : bool :=
  existsb (fun kv => str_eq_value k (fst kv)) d.

(** [d.get(k)]: [None] when the key is absent. *)
Fixpoint dict_get (k : string) (d : pydict) : option PyValue :=
  match d with
  | [] => None
  | (k', v) :: d' => if str_eq_value k k' then Some v else dict_get k d'
  end.

(** [d[k]]: raises [KeyError] when the key is absent. *)
Definition dict_getitem (k : string) (d : pydict) : result PyValue :=
  match dict_get k d with
  | Some v => Ok v
  | None => Raise (KeyError k)
  end.

(** [d.get(k, default)] *)
Definition dict_get_default (k : string) (default : PyValue) (d : pydict) : PyValue :=
  match dict_get k d with
  | Some v => v
  | None => default
  end.

(** ** Checking a list of strings *)

(** Modelled from the spec: the test of [validate_list_of_strs] that
    "every element is a string"; the elements are returned as strings. *)
Fixpoint all_strs (l : list PyValue) : option (list string) :=
  match l with
  | [] => Some []
  | PStr s :: l' => option_map (cons s) (all_strs l')
  | _ :: _ => None
  end.

(** Modelled from the spec: [validate_list_of_strs] of
    [ocdeployer/utils.py], which is not among the sources.  "environments,
    if present, must be a sequence where every element is a string --
    violation fails with a type error naming the offending field".  The
    Python function returns nothing; here the checked list is returned,
    as strings. *)
Definition validate_list_of_strs (item_name section : string) (list_ : PyValue)
  : result (list string) :=
  let failure :=
    ValueError ("'" ++ item_name ++ "' in '" ++ section ++ "' must be a list of strings") in
  match list_ with
  | PList l => match all_strs l with
               | Some strs => Ok strs
               | None => Raise failure
               end
  | _ => Raise failure
  end.

(** ** The parsed form of an image *)

(** One element of the list [parse_config] returns: the dict
    [{"istag": istag, "from": _from, "envs": envs}].  When it is built,
    [istag] and [_from] have passed [isinstance(_, str)] and [envs] has
    passed [validate_list_of_strs]. *)
Record ImageSpec : Type := mkImageSpec {
  istag : string;
  image_from : string;
  envs : list string
}.

(** ** The state the importer works on *)

Inductive level : Type := WARNING | INFO.

(** A record written to the logger "ocdeployer.images": its level and its
    formatted message. *)
Record log_record : Type := mkLog {
  log_level : level;
  log_message : string
}.

(** One call of [oc]: the positional arguments and the keyword argument
    [_reraise]. *)
Record oc_call : Type := mkCall {
  oc_args : list string;
  oc_reraise : bool
}.

Record state : Type := mkState {
  imported_istags : list string;   (* the class attribute of ImageImporter *)
  oc_calls : list oc_call;         (* the calls of [oc] so far, oldest first *)
  log : list log_record            (* the log records so far, oldest first *)
}.

(** The state when the module is loaded: [imported_istags = []]. *)
Definition initial_state : state := mkState [] [] [].

(** A computation that reads and writes the state and returns or raises.
    What was written before an exception was raised stays written. *)
Definition M (A : Type) : Type := state -> result A * state.

Definition ret {A : Type} (a : A) : M A := fun st => (Ok a, st).

Definition bind {A B : Type} (m : M A) (k : A -> M B) : M B :=
  fun st =>
    match m st with
    | (Ok a, st') => k a st'
    | (Raise e, st') => (Raise e, st')
    end.

Definition lift {A : Type} (r : result A) : M A := fun st => (r, st).

Declare Scope M_scope.
Delimit Scope M_scope with M.
Bind Scope M_scope with M.
Notation "x <- m ;; k" := (bind m (fun x => k))
  (at level 61, m at next level, right associativity) : M_scope.
Notation "m ;; k" := (bind m (fun _ => k))
  (at level 61, right associativity) : M_scope.

(** [try: m  except ErrorReturnCode as err: handler(str(err.stderr))] *)
Definition try_except_ErrorReturnCode {A : Type} (m : M A) (handler : string -> M A) : M A :=
  fun st =>
    match m st with
    | (Raise (ErrorReturnCode stderr), st') => handler stderr st'
    | other => other
    end.

Definition get_imported_istags : M (list string) :=
  fun st => (Ok (imported_istags st), st).

Definition log_write (l : level) (message : string) : M unit :=
  fun st => (Ok tt, mkState (imported_istags st) (oc_calls st) (log st ++ [mkLog l message])).

(** [for x in xs: body(x)] *)
Fixpoint for_each {A : Type} (body : A -> M unit) (xs : list A) : M unit :=
  match xs with
  | [] => ret tt
  | x :: xs' => bind (body x) (fun _ => for_each body xs')
  end.

Definition import_image_call (istag image_from : string) : oc_call :=
  mkCall ["import-image"; istag; "--from=" ++ image_from; "--confirm"; "--scheduled=True"] true.

Definition tag_call (istag image_from : string) : oc_call :=
  mkCall ["tag"; "--scheduled=True"; "--source=docker"; image_from; istag] false.

Definition conflict_phrase : string :=
  "use the 'tag' command if you want to change the source".

(** The record [do_import] writes when the tag is in [imported_istags]. *)
Definition duplicate_warning (istag : string) (st : state) : list log_record :=
  if existsb (String.eqb istag) (imported_istags st)
  then [mkLog WARNING ("istag '" ++ istag ++ "' already imported, skipping repeat import...")]
  else [].

Section Images.

(** Python's [str(v)] for a value that is not a string (a built-in; used
    by the f-string in [_parse_istag]). *)
Variable py_repr : PyValue -> string.

(** [f"{v}"] *)
Definition py_format (v : PyValue) : string :=
  match v with
  | PStr s => s
  | _ => py_repr v
  end.

(** ** Parsing *)

(** [_parse_istag(istag)]: append "latest" tag onto istag if it has no
    tag. *)
Definition _parse_istag (istag : PyValue) : result PyValue :=
  match py_str_in ":" istag with
  | Raise e => Raise e
  | Ok false => Ok (PStr (py_format istag ++ ":latest"))
  | Ok true => Ok istag
  end.

Local Open Scope result_scope.

(** The body of the loop of [_parse_new_style]: one entry of the list
    gives one parsed image, or raises. *)
Definition _parse_new_style_entry (img : PyValue) : result ImageSpec :=
  match img with
  | PDict d =>
      fields <-
        (if (2 <=? List.length d)%nat && forallb (fun k => dict_has k d) ["istag"; "from"] then
           (* long-style image definition *)
           v <- dict_getitem "istag" d;;
           istag <- _parse_istag v;;
           _from <- dict_getitem "from" d;;
           Ok (istag, _from, dict_get_default "envs" (PList []) d)
         else if (List.length d =? 1)%nat
                 && forallb (fun k => negb (dict_has k d)) ["istag"; "from"; "envs"] then
           (* short-style image definition *)
           match d with
           | (istag, _from) :: _ =>
               istag <- _parse_istag istag;;
               Ok (istag, _from, PList [])
           | [] => Raise (IndexError "list index out of range")
           end
         else Raise (ValueError "Unknown syntax for 'images' section of config"));;
      let '(istag, _from, envs) := fields in
      match istag, _from with
      | PStr istag, PStr _from =>
          envs <- validate_list_of_strs "envs" "images" envs;;
          Ok (mkImageSpec istag _from envs)
      | _, _ => Raise (ValueError "'istag' and 'from' must be a of type 'string'")
      end
  | _ => Raise (ValueError "entries in 'images' must be of type 'dict'")
  end.

(** [_parse_new_style(images)]: the entries are parsed in order; the first
    one that raises ends the loop. *)
Fixpoint _parse_new_style (images : list PyValue) : result (list ImageSpec) :=
  match images with
  | [] => Ok []
  | img :: images' =>
      spec <- _parse_new_style_entry img;;
      parsed_images <- _parse_new_style images';;
      Ok (spec :: parsed_images)
  end.

(** The body of the loop of [_parse_old_style]. *)
Definition _parse_old_style_entry (item : PyValue * PyValue) : result ImageSpec :=
  match item with
  | (PStr istag, PStr _from) =>
      istag' <- _parse_istag (PStr istag);;
      match istag' with
      | PStr istag' => Ok (mkImageSpec istag' _from [])
      | _ => (* not reached: on a string, [_parse_istag] returns a string *)
             Raise (TypeError "istag")
      end
  | _ => Raise (ValueError "keys and values in 'images' must be a of type 'string'")
  end.

(** [_parse_old_style(images)], over [images.items()]. *)
Fixpoint _parse_old_style (images : pydict) : result (list ImageSpec) :=
  match images with
  | [] => Ok []
  | item :: images' =>
      spec <- _parse_old_style_entry item;;
      parsed_images <- _parse_old_style images';;
      Ok (spec :: parsed_images)
  end.

(** [parse_config(config)] *)
Definition parse_config (config : pydict) : result (list ImageSpec) :=
  if dict_has "images" config then
    match dict_getitem "images" config with
    | Ok (PDict images) => _parse_old_style images
    | Ok (PList images) => _parse_new_style images
    | Ok _ => Ok []
    | Raise e => Raise e
    end
  else Ok [].


(** ** Importing *)

Local Close Scope result_scope.
Local Open Scope M_scope.

(** [oc] of [ocdeployer/utils.py] runs the command line tool.  What a call
    does is decided outside this module: given the calls made before it and
    the call itself, it returns or raises. *)
Variable oc : list oc_call -> oc_call -> result unit.

Definition call_oc (c : oc_call) : M unit :=
  fun st => (oc (oc_calls st) c,
             mkState (imported_istags st) (oc_calls st ++ [c]) (log st)).

(** [ImageImporter._retag_image(istag, image_from)] *)
Definition _retag_image (istag image_from : string) : M unit :=
  call_oc (tag_call istag image_from).

(** [ImageImporter.do_import(istag, image_from)] *)
Definition do_import (istag image_from : string) : M unit :=
  imported <- get_imported_istags;;
  (if existsb (String.eqb istag) imported
   then log_write WARNING
          ("istag '" ++ istag ++ "' already imported, skipping repeat import...")
   else ret tt);;
  try_except_ErrorReturnCode
    (call_oc (import_image_call istag image_from))
    (fun stderr =>
       log_write WARNING
         ("istag '" ++ istag ++ "' points to another source, re-tagging to update...");;
       if str_in conflict_phrase stderr
       then _retag_image istag image_from
       else ret tt).

(** The body of the loop of [import_images]. *)
Definition import_image (env_names : list string) (img_data : ImageSpec) : M unit :=
  if match envs img_data with [] => true | _ :: _ => false end
     || existsb (fun e => existsb (String.eqb e) env_names) (envs img_data)
  then do_import (istag img_data) (image_from img_data)
  else log_write INFO
         ("Skipping import of image '" ++ istag img_data ++ "', not enabled for this env").

(** [import_images(config, env_names)]: import the specified images listed
    in a _cfg.yml. *)
Definition import_images (config : pydict) (env_names : list string) : M unit :=
  images <- lift (parse_config config);;
  for_each (import_image env_names) images.

End Images.

(** ** Values used in statements and closed examples *)

(** The tag [_parse_istag] returns for a string. *)
Definition normalized (tag : string) : string :=
  if str_in ":" tag then tag else tag ++ ":latest".

(** In the closed examples every tag is a string, and [str()] is not
    called on any other value: there this function takes its place. *)
Definition repr_not_called (v : PyValue) : string := "".

(** A cluster on which every command succeeds. *)
Definition oc_succeeds (before : list oc_call) (c : oc_call) : result unit := Ok tt.

(** A cluster on which the tag already points to another source:
    "import-image" fails with the message of the tool, "tag" succeeds. *)
Definition oc_source_conflict (before : list oc_call) (c : oc_call) : result unit :=
  match oc_args c with
  | "import-image" :: _ =>
      Raise (ErrorReturnCode
        "error: the tag already points to another source; use the 'tag' command if you want to change the source")
  | _ => Ok tt
  end.

(** A cluster that cannot be reached: every command fails, with a message
    that does not mention the tag command. *)
Definition oc_unreachable (before : list oc_call) (c : oc_call) : result unit :=
  Raise (ErrorReturnCode "error: dial tcp 10.0.0.1:8443: connect: connection refused").

(** A cluster whose commands do not answer: every command raises the
    timeout exception of [sh], which is not an [ErrorReturnCode]. *)
Definition oc_times_out (before : list oc_call) (c : oc_call) : result unit :=
  Raise (PyException "TimeoutException").

(** [str()] in the closed example of a tag that is the list ["app"], the
    one value it is called on there. *)
Definition repr_of_app_list (v : PyValue) : string := "['app']".

(** A configuration with a short-style entry and a long-style entry that
    is enabled in "prod" only, and the images it is parsed to. *)
Definition example_config : pydict :=
  [(PStr "images",
    PList [PDict [(PStr "foo", PStr "quay.io/x/foo:1.0")];
           PDict [(PStr "istag", PStr "bar"); (PStr "from", PStr "docker.io/y/bar");
                  (PStr "envs", PList [PStr "prod"])]])].

Definition example_images : list ImageSpec :=
  [mkImageSpec "foo:latest" "quay.io/x/foo:1.0" [];
   mkImageSpec "bar:latest" "docker.io/y/bar" ["prod"]].

(** The test of [import_images] that an image is imported: it has no
    environments, or one of them is in [env_names]. *)
Definition enabled (env_names : list string) (img_data : ImageSpec) : bool :=
  match envs img_data with [] => true | _ :: _ => false end
  || existsb (fun e => existsb (String.eqb e) env_names) (envs img_data).

(** The record [import_images] writes for an image it skips. *)
Definition skip_record (img_data : ImageSpec) : log_record :=
  mkLog INFO ("Skipping import of image '" ++ istag img_data
              ++ "', not enabled for this env").

(** The record [do_import] writes when "import-image" fails with
    [ErrorReturnCode]. *)
Definition retag_warning (istag : string) : log_record :=
  mkLog WARNING ("istag '" ++ istag
                 ++ "' points to another source, re-tagging to update...").

(** The keys that a short-style entry may not have. *)
Definition reserved_key (k : string) : bool :=
  existsb (String.eqb k) ["istag"; "from"; "envs"].

(** An item of the legacy mapping, and a short-style entry, for a tag and
    a source that are strings; the image both are parsed to. *)
Definition str_item (p : string * string) : PyValue * PyValue :=
  (PStr (fst p), PStr (snd p)).

Definition short_entry (p : string * string) : PyValue :=
  PDict [str_item p].

Definition image_of_pair (p : string * string) : ImageSpec :=
  mkImageSpec (normalized (fst p)) (snd p) [].

(** * Properties *)

(** ** Substring test *)

Lemma prefix_append (n b : string) : String.prefix n (n ++ b) = true.
Proof.
  induction n as [|c n IH]; simpl.
  - now destruct b.
  - destruct (ascii_dec c c) as [_|ne]; [exact IH | now elim ne].
Qed.

Lemma prefix_split (n h : string) :
  String.prefix n h = true -> exists b, h = n ++ b.
Proof.
  revert h; induction n as [|c n IH]; intros h H.
  - now exists h.
  - destruct h as [|c' h]; simpl in H; [discriminate|].
    destruct (ascii_dec c c') as [->|_]; [|discriminate].
    destruct (IH _ H) as [b ->]. now exists b.
Qed.

Lemma str_in_append_l (n a h : string) :
  str_in n h = true -> str_in n (a ++ h) = true.
Proof.
  intros H. induction a as [|c a IH].
  - exact H.
  - change (str_in n (String c (a ++ h)) = true).
    cbn [str_in]. rewrite IH.
    now destruct (String.prefix n (String c (a ++ h))).
Qed.

Lemma str_in_prefix (n h : string) :
  String.prefix n h = true -> str_in n h = true.
Proof.
  intros H. destruct h; cbn [str_in]; now rewrite H.
Qed.

(** [str_in] is the substring relation. *)
Lemma str_in_iff (n h : string) :
  str_in n h = true <-> exists a b, h = a ++ n ++ b.
Proof.
  split.
  - induction h as [|c h IH]; cbn [str_in].
    + destruct (String.prefix n "") eqn:P; [|discriminate].
      intros _. destruct (prefix_split _ _ P) as [b E]. now exists "", b.
    + destruct (String.prefix n (String c h)) eqn:P.
      * intros _. destruct (prefix_split _ _ P) as [b E]. now exists "", b.
      * intros H. destruct (IH H) as (a & b & E). exists (String c a), b.
        simpl. now rewrite E.
  - intros (a & b & ->). apply str_in_append_l, str_in_prefix, prefix_append.
Qed.

Lemma prefix_char (c c' : ascii) (s : string) :
  String.prefix (String c "") (String c' s) = if ascii_dec c c' then true else false.
Proof.
  simpl. destruct (ascii_dec c c'); [now destruct s | reflexivity].
Qed.

(** For the one-character needle ":", the test is membership of the
    character. *)
Lemma str_in_colon (s : string) :
  str_in ":" s = true <-> In ":"%char (list_ascii_of_string s).
Proof.
  induction s as [|c s IH].
  - simpl. split; [discriminate | tauto].
  - cbn [str_in list_ascii_of_string In]. rewrite prefix_char.
    destruct (ascii_dec ":" c) as [E|ne].
    + split; auto.
    + rewrite IH. split; [tauto|]. intros [E|H]; [now elim ne | exact H].
Qed.

Lemma str_in_colon_false (s : string) :
  str_in ":" s = false <-> ~ In ":"%char (list_ascii_of_string s).
Proof.
  rewrite <- str_in_colon. destruct (str_in ":" s); split; congruence.
Qed.

Lemma str_in_colon_latest (s : string) : str_in ":" (s ++ ":latest") = true.
Proof.
  apply str_in_iff. now exists s, "latest".
Qed.

(** ** Dictionaries *)

Lemma dict_get_has (k : string) (d : pydict) (v : PyValue) :
  dict_get k d = Some v -> dict_has k d = true.
Proof.
  unfold dict_has. induction d as [|[k' v'] d IH]; simpl; [discriminate|].
  destruct (str_eq_value k k'); [reflexivity | exact IH].
Qed.

Lemma dict_has_get (k : string) (d : pydict) :
  dict_has k d = false -> dict_get k d = None.
Proof.
  unfold dict_has. induction d as [|[k' v'] d IH]; simpl; [reflexivity|].
  destruct (str_eq_value k k'); [discriminate | exact IH].
Qed.

Lemma str_eq_value_eq (k1 k2 : string) (v : PyValue) :
  str_eq_value k1 v = true -> str_eq_value k2 v = true -> k1 = k2.
Proof.
  destruct v; simpl; try discriminate.
  intros H1 H2. apply String.eqb_eq in H1, H2. congruence.
Qed.

(** A dict that has two different keys has at least two items. *)
Lemma dict_two_keys (k1 k2 : string) (d : pydict) :
  k1 <> k2 -> dict_has k1 d = true -> dict_has k2 d = true ->
  (2 <=? List.length d)%nat = true.
Proof.
  intros ne H1 H2. destruct d as [|[ka va] [|kb d]]; simpl in *.
  - discriminate.
  - rewrite orb_false_r in H1, H2. elim ne. eapply str_eq_value_eq; eassumption.
  - reflexivity.
Qed.

Section ParsingFacts.

Variable py_repr : PyValue -> string.

Local Abbreviation parse_istag := (_parse_istag py_repr).
Local Abbreviation parse_new_entry := (_parse_new_style_entry py_repr).
Local Abbreviation parse_old_entry := (_parse_old_style_entry py_repr).
Local Abbreviation parse_new := (_parse_new_style py_repr).
Local Abbreviation parse_old := (_parse_old_style py_repr).

(** ** Tag normalization *)

Lemma parse_istag_str (tag : string) :
  parse_istag (PStr tag) = Ok (PStr (normalized tag)).
Proof.
  unfold _parse_istag, normalized. simpl. now destruct (str_in ":" tag).
Qed.

Lemma normalized_has_colon (tag : string) : str_in ":" (normalized tag) = true.
Proof.
  unfold normalized. destruct (str_in ":" tag) eqn:E; [exact E|].
  apply str_in_colon_latest.
Qed.

Lemma normalized_idempotent (tag : string) :
  normalized (normalized tag) = normalized tag.
Proof.
  unfold normalized at 1. now rewrite normalized_has_colon.
Qed.

(** ** One entry of the configuration *)

Lemma parse_old_entry_str (tag src : string) :
  parse_old_entry (PStr tag, PStr src) = Ok (mkImageSpec (normalized tag) src []).
Proof.
  unfold _parse_old_style_entry. now rewrite parse_istag_str.
Qed.

(** A long-style entry: a dict with the keys "istag" and "from", both
    strings, and possibly "envs". *)
Lemma parse_new_entry_long (d : pydict) (tag src : string) (es : list string) :
  dict_get "istag" d = Some (PStr tag) ->
  dict_get "from" d = Some (PStr src) ->
  validate_list_of_strs "envs" "images" (dict_get_default "envs" (PList []) d) = Ok es ->
  parse_new_entry (PDict d) = Ok (mkImageSpec (normalized tag) src es).
Proof.
  intros Ht Hs He. unfold _parse_new_style_entry.
  rewrite (dict_two_keys "istag" "from" d) by (eauto using dict_get_has || discriminate).
  cbn [forallb andb].
  rewrite (dict_get_has _ _ _ Ht), (dict_get_has _ _ _ Hs). cbn [andb].
  unfold dict_getitem. rewrite Ht, Hs. cbn [rbind].
  rewrite parse_istag_str. cbn [rbind]. now rewrite He.
Qed.

(** A short-style entry: a dict with one item, whose key is none of
    "istag", "from" and "envs". *)
Lemma parse_new_entry_short (tag src : string) :
  tag <> "istag" -> tag <> "from" -> tag <> "envs" ->
  parse_new_entry (PDict [(PStr tag, PStr src)]) = Ok (mkImageSpec (normalized tag) src []).
Proof.
  intros n1 n2 n3. unfold _parse_new_style_entry, dict_has.
  cbn [List.length Nat.leb Nat.eqb andb forallb existsb fst str_eq_value orb].
  apply not_eq_sym, String.eqb_neq in n1, n2, n3. rewrite n1, n2, n3.
  cbn [negb andb rbind]. now rewrite parse_istag_str.
Qed.

Lemma parse_old_single (tag src : string) :
  parse_old [(PStr tag, PStr src)] = Ok [mkImageSpec (normalized tag) src []].
Proof.
  cbn [_parse_old_style]. now rewrite parse_old_entry_str.
Qed.

Lemma parse_new_single (img : PyValue) (spec : ImageSpec) :
  parse_new_entry img = Ok spec -> parse_new [img] = Ok [spec].
Proof.
  intros H. cbn [_parse_new_style]. now rewrite H.
Qed.

(** C7: a tag without ":" is normalized to the tag followed by ":latest",
    a tag with a ":" is left as it is, and the tag of the parsed image is
    this normalized tag in the legacy mapping, in a long-style entry and in
    a short-style entry of the sequence. *)
Theorem parse_istag_appends_latest (tag : string) :
  (~ In ":"%char (list_ascii_of_string tag) ->
   parse_istag (PStr tag) = Ok (PStr (tag ++ ":latest")))
  /\ (In ":"%char (list_ascii_of_string tag) ->
      parse_istag (PStr tag) = Ok (PStr tag))
  /\ exists n,
       parse_istag (PStr tag) = Ok (PStr n)
       /\ (forall src, parse_old [(PStr tag, PStr src)] = Ok [mkImageSpec n src []])
       /\ (forall d src es,
              dict_get "istag" d = Some (PStr tag) ->
              dict_get "from" d = Some (PStr src) ->
              validate_list_of_strs "envs" "images"
                (dict_get_default "envs" (PList []) d) = Ok es ->
              parse_new [PDict d] = Ok [mkImageSpec n src es])
       /\ (forall src,
              tag <> "istag" -> tag <> "from" -> tag <> "envs" ->
              parse_new [PDict [(PStr tag, PStr src)]] = Ok [mkImageSpec n src []]).
Proof.
  split; [|split].
  - intros H. apply str_in_colon_false in H.
    rewrite parse_istag_str. unfold normalized. now rewrite H.
  - intros H. apply str_in_colon in H.
    rewrite parse_istag_str. unfold normalized. now rewrite H.
  - exists (normalized tag). repeat split.
    + apply parse_istag_str.
    + intros src. apply parse_old_single.
    + intros d src es Ht Hs He. now apply parse_new_single, parse_new_entry_long.
    + intros src n1 n2 n3. now apply parse_new_single, parse_new_entry_short.
Qed.

(** C10: normalizing a tag twice gives what normalizing it once gives.
    This holds for every value [_parse_istag] can be called on (a second
    call happens only when the first one returned); for a string the
    result is a string that a second call returns unchanged. *)
Theorem parse_istag_idempotent :
  (forall v : PyValue, rbind (parse_istag v) parse_istag = parse_istag v)
  /\ (forall tag : string,
        exists n, parse_istag (PStr tag) = Ok (PStr n)
                  /\ parse_istag (PStr n) = Ok (PStr n)).
Proof.
  split.
  - intros v. destruct (py_str_in ":" v) as [[|]|e] eqn:E.
    + assert (H : parse_istag v = Ok v)
        by (unfold _parse_istag; now rewrite E).
      rewrite H. exact H.
    + assert (H : parse_istag v = Ok (PStr (py_format py_repr v ++ ":latest")))
        by (unfold _parse_istag; now rewrite E).
      rewrite H. cbn [rbind]. rewrite parse_istag_str. unfold normalized.
      now rewrite str_in_colon_latest.
    + assert (H : parse_istag v = Raise e)
        by (unfold _parse_istag; now rewrite E).
      now rewrite H.
  - intros tag. exists (normalized tag). split.
    + apply parse_istag_str.
    + rewrite parse_istag_str. now rewrite normalized_idempotent.
Qed.

(** The legacy mapping and the sequence of long-style entries without
    "envs" give the same list of images. *)
Lemma parse_old_new_lists (pairs : list (string * string)) :
  parse_old (map (fun p => (PStr (fst p), PStr (snd p))) pairs)
  = parse_new (map (fun p => PDict [(PStr "istag", PStr (fst p));
                                     (PStr "from", PStr (snd p))]) pairs).
Proof.
  induction pairs as [|[tag src] pairs IH]; [reflexivity|].
  cbn [map fst snd _parse_old_style _parse_new_style].
  rewrite parse_old_entry_str, IH.
  now rewrite (parse_new_entry_long _ tag src []) by reflexivity.
Qed.

(** C9: the legacy mapping {tag: source} and a long-style entry of the
    sequence with the same tag and source and without "envs" are parsed to
    equal images: the normalized tag, the source and no environments. *)
Theorem legacy_and_long_form_agree (tag src : string) (d : pydict) :
  dict_get "istag" d = Some (PStr tag) ->
  dict_get "from" d = Some (PStr src) ->
  dict_get "envs" d = None ->
  parse_config py_repr [(PStr "images", PDict [(PStr tag, PStr src)])]
  = parse_config py_repr [(PStr "images", PList [PDict d])]
  /\ parse_old [(PStr tag, PStr src)] = parse_new [PDict d]
  /\ parse_new [PDict d] = Ok [mkImageSpec (normalized tag) src []]
  /\ str_in ":" (normalized tag) = true.
Proof.
  intros Ht Hs He.
  assert (N : parse_new [PDict d] = Ok [mkImageSpec (normalized tag) src []]).
  { apply parse_new_single, parse_new_entry_long; auto.
    unfold dict_get_default. now rewrite He. }
  assert (O := parse_old_single tag src).
  repeat split.
  - unfold parse_config, dict_getitem. simpl dict_has. simpl dict_get. congruence.
  - congruence.
  - exact N.
  - apply normalized_has_colon.
Qed.

(** ** Entries that are rejected *)

Lemma parse_old_entry_not_str (k v : PyValue) :
  isinstance_str k = false \/ isinstance_str v = false ->
  parse_old_entry (k, v)
  = Raise (ValueError "keys and values in 'images' must be a of type 'string'").
Proof.
  intros [H|H]; destruct k; try discriminate H; try reflexivity;
    destruct v; try discriminate H; reflexivity.
Qed.

Lemma parse_old_entry_result (item : PyValue * PyValue) :
  (exists spec, parse_old_entry item = Ok spec)
  \/ parse_old_entry item
     = Raise (ValueError "keys and values in 'images' must be a of type 'string'").
Proof.
  destruct item as [k v].
  destruct k; try (right; reflexivity).
  destruct v; try (right; reflexivity).
  left. rewrite parse_old_entry_str. eauto.
Qed.

(** The only exception [_parse_old_style] raises is its [ValueError]: it
    does so as soon as one key or one value is not a string. *)
Lemma parse_old_not_str (images : pydict) (k v : PyValue) :
  In (k, v) images ->
  isinstance_str k = false \/ isinstance_str v = false ->
  parse_old images
  = Raise (ValueError "keys and values in 'images' must be a of type 'string'").
Proof.
  intros HIn Hbad. induction images as [|item images IH]; [contradiction|].
  cbn [_parse_old_style].
  destruct HIn as [->|HIn].
  - now rewrite parse_old_entry_not_str.
  - destruct (parse_old_entry_result item) as [[spec ->]| ->]; [|reflexivity].
    cbn [rbind]. now rewrite (IH HIn).
Qed.

Lemma parse_new_append (pre post : list PyValue) :
  parse_new (pre ++ post)%list
  = rbind (parse_new pre) (fun specs =>
      rbind (parse_new post) (fun specs' => Ok (specs ++ specs')%list)).
Proof.
  induction pre as [|img pre IH]; cbn [app _parse_new_style rbind].
  - now destruct (parse_new post).
  - destruct (parse_new_entry img); cbn [rbind]; [|reflexivity].
    rewrite IH. destruct (parse_new pre); cbn [rbind]; [|reflexivity].
    now destruct (parse_new post).
Qed.

(** The loop of [_parse_new_style] stops at the first entry that raises. *)
Lemma parse_new_raise_at (pre post : list PyValue) (img : PyValue)
      (specs : list ImageSpec) (e : exn) :
  parse_new pre = Ok specs ->
  parse_new_entry img = Raise e ->
  parse_new (pre ++ img :: post)%list = Raise e.
Proof.
  intros Hpre Himg. rewrite parse_new_append, Hpre.
  cbn [rbind _parse_new_style]. now rewrite Himg.
Qed.

(** A list with an entry that raises is not parsed. *)
Lemma parse_new_raise_somewhere (pre post : list PyValue) (img : PyValue) (e : exn) :
  parse_new_entry img = Raise e ->
  exists e', parse_new (pre ++ img :: post)%list = Raise e'.
Proof.
  intros Himg. destruct (parse_new pre) as [specs|e'] eqn:Hpre.
  - exists e. eapply parse_new_raise_at; eassumption.
  - exists e'. rewrite parse_new_append, Hpre. reflexivity.
Qed.

Lemma parse_new_entry_long_from_not_str (d : pydict) (tag : string) (v : PyValue) :
  dict_get "istag" d = Some (PStr tag) ->
  dict_get "from" d = Some v ->
  isinstance_str v = false ->
  parse_new_entry (PDict d)
  = Raise (ValueError "'istag' and 'from' must be a of type 'string'").
Proof.
  intros Ht Hs Hv. unfold _parse_new_style_entry.
  rewrite (dict_two_keys "istag" "from" d) by (eauto using dict_get_has || discriminate).
  cbn [forallb andb].
  rewrite (dict_get_has _ _ _ Ht), (dict_get_has _ _ _ Hs). cbn [andb].
  unfold dict_getitem. rewrite Ht, Hs. cbn [rbind].
  rewrite parse_istag_str. cbn [rbind].
  destruct v; try reflexivity. discriminate Hv.
Qed.

Lemma parse_new_entry_short_from_not_str (tag : string) (v : PyValue) :
  tag <> "istag" -> tag <> "from" -> tag <> "envs" ->
  isinstance_str v = false ->
  parse_new_entry (PDict [(PStr tag, v)])
  = Raise (ValueError "'istag' and 'from' must be a of type 'string'").
Proof.
  intros n1 n2 n3 Hv. unfold _parse_new_style_entry, dict_has.
  cbn [List.length Nat.leb Nat.eqb andb forallb existsb fst str_eq_value orb].
  apply not_eq_sym, String.eqb_neq in n1, n2, n3. rewrite n1, n2, n3.
  cbn [negb andb rbind]. rewrite parse_istag_str. cbn [rbind].
  destruct v; try reflexivity. discriminate Hv.
Qed.

(** C4, amended: a source that is not a string is rejected in both shapes
    of the configuration, and so is a tag that is not a string in the
    legacy mapping, with a [ValueError] whose message names the two fields;
    a tag or a source that is the empty string is accepted. *)
Theorem tag_and_source_must_be_strings :
  (forall (images : pydict) (k v : PyValue),
      In (k, v) images ->
      isinstance_str k = false \/ isinstance_str v = false ->
      parse_config py_repr [(PStr "images", PDict images)]
      = Raise (ValueError "keys and values in 'images' must be a of type 'string'"))
  /\ (forall (pre post : list PyValue) (specs : list ImageSpec)
             (d : pydict) (tag : string) (v : PyValue),
        parse_new pre = Ok specs ->
        dict_get "istag" d = Some (PStr tag) ->
        dict_get "from" d = Some v ->
        isinstance_str v = false ->
        parse_config py_repr [(PStr "images", PList (pre ++ PDict d :: post)%list)]
        = Raise (ValueError "'istag' and 'from' must be a of type 'string'"))
  /\ (forall (pre post : list PyValue) (specs : list ImageSpec)
             (tag : string) (v : PyValue),
        parse_new pre = Ok specs ->
        tag <> "istag" -> tag <> "from" -> tag <> "envs" ->
        isinstance_str v = false ->
        parse_config py_repr [(PStr "images", PList (pre ++ PDict [(PStr tag, v)] :: post)%list)]
        = Raise (ValueError "'istag' and 'from' must be a of type 'string'"))
  /\ parse_config py_repr [(PStr "images", PDict [(PStr "", PStr "")])]
     = Ok [mkImageSpec ":latest" "" []]
  /\ parse_config py_repr
       [(PStr "images", PList [PDict [(PStr "istag", PStr ""); (PStr "from", PStr "")]])]
     = Ok [mkImageSpec ":latest" "" []]
  /\ parse_config py_repr [(PStr "images", PList [PDict [(PStr "", PStr "")]])]
     = Ok [mkImageSpec ":latest" "" []].
Proof.
  repeat split.
  - intros images k v HIn Hbad.
    change (parse_old images = Raise (ValueError "keys and values in 'images' must be a of type 'string'")).
    eapply parse_old_not_str; eassumption.
  - intros pre post specs d tag v Hpre Ht Hs Hv.
    change (parse_new (pre ++ PDict d :: post)%list = Raise (ValueError "'istag' and 'from' must be a of type 'string'")).
    eapply parse_new_raise_at; [eassumption|].
    eapply parse_new_entry_long_from_not_str; eassumption.
  - intros pre post specs tag v Hpre n1 n2 n3 Hv.
    change (parse_new (pre ++ PDict [(PStr tag, v)] :: post)%list = Raise (ValueError "'istag' and 'from' must be a of type 'string'")).
    eapply parse_new_raise_at; [eassumption|].
    now apply parse_new_entry_short_from_not_str.
Qed.

End ParsingFacts.

(** ** The importer *)

Section ImportFacts.

Variable py_repr : PyValue -> string.
Variable oc : list oc_call -> oc_call -> result unit.

Local Abbreviation do_import' := (do_import oc).
Local Abbreviation import_image' := (import_image oc).
Local Abbreviation import_images' := (import_images py_repr oc).

(** The state after the test of [imported_istags] and the call of
    [oc("import-image", ...)]. *)
Lemma do_import_unfold (tag src : string) (st : state) :
  do_import' tag src st
  = let st1 := mkState (imported_istags st)
                       (oc_calls st ++ [import_image_call tag src])
                       (log st ++ duplicate_warning tag st) in
    match oc (oc_calls st) (import_image_call tag src) with
    | Raise (ErrorReturnCode stderr) =>
        let st2 := mkState (imported_istags st) (oc_calls st1)
                     (log st1 ++ [mkLog WARNING ("istag '" ++ tag
                        ++ "' points to another source, re-tagging to update...")]) in
        if str_in conflict_phrase stderr
        then (oc (oc_calls st1) (tag_call tag src),
              mkState (imported_istags st) (oc_calls st1 ++ [tag_call tag src]) (log st2))
        else (Ok tt, st2)
    | other => (other, st1)
    end.
Proof.
  unfold do_import, bind, get_imported_istags, try_except_ErrorReturnCode,
    call_oc, _retag_image, duplicate_warning, log_write, ret.
  destruct (existsb (String.eqb tag) (imported_istags st)); cbn -[str_in conflict_phrase].
  - destruct (oc (oc_calls st) (import_image_call tag src)) as [[]|[]];
      try reflexivity.
    cbn -[str_in conflict_phrase]. now destruct (str_in conflict_phrase stderr).
  - rewrite app_nil_r. destruct st as [im calls lg]; cbn -[str_in conflict_phrase].
    destruct (oc calls (import_image_call tag src)) as [[]|[]];
      try reflexivity.
    cbn -[str_in conflict_phrase]. now destruct (str_in conflict_phrase stderr).
Qed.

Lemma do_import_keeps_imported_istags (tag src : string) (st : state) :
  imported_istags (snd (do_import' tag src st)) = imported_istags st.
Proof.
  rewrite do_import_unfold. cbv zeta.
  destruct (oc (oc_calls st) (import_image_call tag src)) as [[]|[]]; try reflexivity.
  now destruct (str_in conflict_phrase stderr).
Qed.

(** [do_import] first runs "import-image" for its tag and source. *)
Lemma do_import_calls (tag src : string) (st : state) :
  exists calls,
    oc_calls (snd (do_import' tag src st))
    = (oc_calls st ++ import_image_call tag src :: calls)%list.
Proof.
  rewrite do_import_unfold. cbv zeta.
  destruct (oc (oc_calls st) (import_image_call tag src)) as [[]|[]];
    try (exists []; reflexivity).
  destruct (str_in conflict_phrase stderr); cbn [snd oc_calls].
  - exists [tag_call tag src]. now rewrite <- app_assoc.
  - now exists [].
Qed.



(** An exception of [oc] that is not an [ErrorReturnCode] is not caught. *)
Lemma do_import_passes_other_exceptions (tag src : string) (st : state) (e : exn) :
  oc (oc_calls st) (import_image_call tag src) = Raise e ->
  (forall stderr, e <> ErrorReturnCode stderr) ->
  fst (do_import' tag src st) = Raise e.
Proof.
  intros Hfail Hne. rewrite do_import_unfold, Hfail. cbv zeta.
  destruct e; try reflexivity. now elim (Hne stderr).
Qed.

(** ** The loop of [import_images] *)

Lemma for_each_append {A : Type} (body : A -> M unit) (pre post : list A) (st : state) :
  for_each body (pre ++ post) st
  = match for_each body pre st with
    | (Ok _, st1) => for_each body post st1
    | (Raise e, st1) => (Raise e, st1)
    end.
Proof.
  revert st. induction pre as [|x pre IH]; intros st; cbn [app for_each].
  - reflexivity.
  - unfold bind. destruct (body x st) as [[[]|e] st1]; [apply IH | reflexivity].
Qed.

Lemma import_image_skips (env_names : list string) (img : ImageSpec) (st : state) :
  envs img <> [] ->
  (forall e, In e (envs img) -> ~ In e env_names) ->
  import_image' env_names img st
  = (Ok tt,
     mkState (imported_istags st) (oc_calls st)
       (log st ++ [mkLog INFO ("Skipping import of image '" ++ istag img
                                ++ "', not enabled for this env")])).
Proof.
  intros Hne Hdisjoint. unfold import_image.
  assert (E : existsb (fun e => existsb (String.eqb e) env_names) (envs img) = false).
  { apply not_true_is_false. intros H.
    apply existsb_exists in H. destruct H as (e & He & H).
    apply existsb_exists in H. destruct H as (e' & He' & H).
    apply String.eqb_eq in H. subst e'. exact (Hdisjoint e He He'). }
  rewrite E. destruct (envs img); [now elim Hne | reflexivity].
Qed.

Lemma import_image_no_envs (env_names : list string) (img : ImageSpec) (st : state) :
  envs img = [] ->
  import_image' env_names img st = do_import' (istag img) (image_from img) st.
Proof.
  intros E. unfold import_image. now rewrite E.
Qed.

Lemma import_image_calls_extend (env_names : list string) (img : ImageSpec) (st : state) :
  exists calls,
    oc_calls (snd (import_image' env_names img st)) = (oc_calls st ++ calls)%list.
Proof.
  unfold import_image.
  destruct (_ || _).
  - destruct (do_import_calls (istag img) (image_from img) st) as [calls E].
    eauto.
  - exists []. cbn. now rewrite app_nil_r.
Qed.

Lemma for_each_calls_extend (env_names : list string) (imgs : list ImageSpec) (st : state) :
  exists calls,
    oc_calls (snd (for_each (import_image' env_names) imgs st))
    = (oc_calls st ++ calls)%list.
Proof.
  revert st. induction imgs as [|img imgs IH]; intros st; cbn [for_each].
  - exists []. cbn. now rewrite app_nil_r.
  - unfold bind.
    destruct (import_image_calls_extend env_names img st) as [c1 E1].
    destruct (import_image' env_names img st) as [[[]|e] st1]; cbn [snd] in *.
    + destruct (IH st1) as [c2 E2]. exists (c1 ++ c2)%list.
      now rewrite E2, E1, app_assoc.
    + eauto.
Qed.

(** C6: [img] is one of the parsed images and the loop has reached it in
    the state [st1].  When its list of environments is not empty and has
    no element in [env_names], the image is skipped: a record is logged at
    level INFO, no command is run for it, and the loop goes on with the
    images after it.  When its list of environments is empty, it is
    imported whatever [env_names] is: the next command run is
    "import-image" for its tag and source. *)
Theorem import_images_environment_gate
        (config : pydict) (env_names : list string)
        (pre post : list ImageSpec) (img : ImageSpec) (st st1 : state) :
  parse_config py_repr config = Ok (pre ++ img :: post)%list ->
  for_each (import_image' env_names) pre st = (Ok tt, st1) ->
  (envs img <> [] ->
   (forall e, In e (envs img) -> ~ In e env_names) ->
   import_images' config env_names st
   = for_each (import_image' env_names) post
       (mkState (imported_istags st1) (oc_calls st1)
          (log st1 ++ [mkLog INFO ("Skipping import of image '" ++ istag img
                                    ++ "', not enabled for this env")])))
  /\ (envs img = [] ->
      import_images' config env_names st
      = bind (do_import' (istag img) (image_from img))
             (fun _ => for_each (import_image' env_names) post) st1
      /\ exists calls,
           oc_calls (snd (import_images' config env_names st))
           = (oc_calls st1 ++ import_image_call (istag img) (image_from img) :: calls)%list).
Proof.
  intros Hparse Hpre.
  assert (Hloop : import_images' config env_names st
                  = bind (import_image' env_names img)
                         (fun _ => for_each (import_image' env_names) post) st1).
  { unfold import_images, bind at 1, lift. rewrite Hparse.
    rewrite for_each_append, Hpre. reflexivity. }
  split.
  - intros Hne Hdisjoint. rewrite Hloop. unfold bind.
    now rewrite import_image_skips.
  - intros Hempty. rewrite Hloop. unfold bind.
    rewrite import_image_no_envs by assumption. split; [reflexivity|].
    destruct (do_import_calls (istag img) (image_from img) st1) as [c1 E1].
    destruct (do_import' (istag img) (image_from img) st1) as [[[]|e] st2];
      cbn [snd] in *.
    + destruct (for_each_calls_extend env_names post st2) as [c2 E2].
      exists (c1 ++ c2)%list. rewrite E2, E1, <- app_assoc. reflexivity.
    + eauto.
Qed.

(** ** Configuration errors *)

Lemma import_images_parse_error (config : pydict) (env_names : list string)
      (st : state) (e : exn) :
  parse_config py_repr config = Raise e ->
  import_images' config env_names st = (Raise e, st).
Proof.
  intros H. unfold import_images, bind, lift. now rewrite H.
Qed.

Lemma parse_config_sequence (config : pydict) (images : list PyValue) :
  dict_get "images" config = Some (PList images) ->
  parse_config py_repr config = _parse_new_style py_repr images.
Proof.
  intros H. unfold parse_config, dict_getitem.
  now rewrite (dict_get_has _ _ _ H), H.
Qed.

(** An entry with the key "istag" and without the key "from" is not of a
    known syntax, whatever other keys it has. *)
Lemma parse_new_entry_istag_without_from (d : pydict) :
  dict_has "istag" d = true ->
  dict_has "from" d = false ->
  _parse_new_style_entry py_repr (PDict d)
  = Raise (ValueError "Unknown syntax for 'images' section of config").
Proof.
  intros Ht Hs. unfold _parse_new_style_entry.
  cbn [forallb]. rewrite Ht, Hs. cbn [negb andb].
  rewrite !andb_false_r. reflexivity.
Qed.

(** C8: when parsing the configuration raises, [import_images] raises the
    same exception and leaves the state as it was: no command has been run
    and nothing has been logged.  Parsing raises as soon as one entry of
    the sequence does, wherever it is in the sequence; an entry with the
    key "istag" and without the key "from" does. *)
Theorem config_error_before_any_command
        (config : pydict) (env_names : list string) (st : state) :
  (forall e, parse_config py_repr config = Raise e ->
             import_images' config env_names st = (Raise e, st))
  /\ (forall pre img post e0,
        dict_get "images" config = Some (PList (pre ++ img :: post)%list) ->
        _parse_new_style_entry py_repr img = Raise e0 ->
        exists e, parse_config py_repr config = Raise e
                  /\ import_images' config env_names st = (Raise e, st))
  /\ (forall d,
        dict_has "istag" d = true ->
        dict_has "from" d = false ->
        _parse_new_style_entry py_repr (PDict d)
        = Raise (ValueError "Unknown syntax for 'images' section of config")).
Proof.
  split; [|split].
  - intros e. apply import_images_parse_error.
  - intros pre img post e0 Hcfg Himg.
    destruct (parse_new_raise_somewhere py_repr pre post img e0 Himg) as [e He].
    exists e. rewrite <- (parse_config_sequence _ _ Hcfg) in He.
    split; [exact He | now apply import_images_parse_error].
  - apply parse_new_entry_istag_without_from.
Qed.

(** C3, amended: when the images section is there and is neither a mapping
    nor a sequence, parsing returns the empty list and raises nothing;
    [import_images] then returns without running a command. *)
Theorem images_of_another_type_give_no_image
        (config : pydict) (v : PyValue) (env_names : list string) (st : state) :
  dict_get "images" config = Some v ->
  (forall d, v <> PDict d) ->
  (forall l, v <> PList l) ->
  parse_config py_repr config = Ok []
  /\ import_images' config env_names st = (Ok tt, st).
Proof.
  intros Hcfg Hd Hl.
  assert (P : parse_config py_repr config = Ok []).
  { unfold parse_config, dict_getitem.
    rewrite (dict_get_has _ _ _ Hcfg), Hcfg.
    destruct v; try reflexivity; [now elim (Hl l) | now elim (Hd d)]. }
  split; [exact P|].
  unfold import_images, bind, lift. now rewrite P.
Qed.

End ImportFacts.

(** ** Closed examples *)

(** C2: [do_import] is run twice for the same tag on a cluster where every
    command succeeds.  After the first run the tag is not in
    [imported_istags], and the second run, which imports again, writes no
    warning. *)
Theorem do_import_twice_records_nothing :
  let st1 := snd (do_import oc_succeeds "app:latest" "quay.io/org/app:1.0" initial_state) in
  let st2 := snd (do_import oc_succeeds "app:latest" "quay.io/org/app:1.0" st1) in
  imported_istags st1 = []
  /\ log st2 = []
  /\ oc_calls st2 = [import_image_call "app:latest" "quay.io/org/app:1.0";
                     import_image_call "app:latest" "quay.io/org/app:1.0"].
Proof.
  vm_compute. repeat split.
Qed.

(** No run of [do_import] puts a tag into [imported_istags]: from the
    initial state the warning about a repeated import is never written. *)
Lemma do_import_never_warns_of_repeat
      (oc : list oc_call -> oc_call -> result unit) (tag src : string) (st : state) :
  imported_istags st = [] ->
  imported_istags (snd (do_import oc tag src st)) = []
  /\ duplicate_warning tag st = [].
Proof.
  intros H. rewrite do_import_keeps_imported_istags.
  unfold duplicate_warning. now rewrite H.
Qed.



(** C3 as stated fails: an images section that is a string, or a number,
    is parsed to the empty list. *)
Lemma parse_config_accepts_scalar_images :
  parse_config repr_not_called [(PStr "images", PStr "quay.io/org/app:1.0")] = Ok []
  /\ parse_config repr_not_called [(PStr "images", PInt 3)] = Ok [].
Proof.
  split; reflexivity.
Qed.

Lemma images_of_another_type_give_no_image_witness :
  parse_config repr_not_called [(PStr "images", PStr "quay.io/org/app:1.0")] = Ok []
  /\ import_images repr_not_called oc_succeeds
       [(PStr "images", PStr "quay.io/org/app:1.0")] ["prod"] initial_state
     = (Ok tt, initial_state).
Proof.
  apply (images_of_another_type_give_no_image repr_not_called oc_succeeds
           [(PStr "images", PStr "quay.io/org/app:1.0")]
           (PStr "quay.io/org/app:1.0") ["prod"] initial_state).
  - reflexivity.
  - intros d; discriminate.
  - intros l; discriminate.
Defined.

(** C4 as stated fails: an entry whose tag and source are the empty string
    is parsed, in the legacy mapping and in the sequence. *)
Lemma parse_config_accepts_empty_strings :
  parse_config repr_not_called [(PStr "images", PDict [(PStr "", PStr "")])]
  = Ok [mkImageSpec ":latest" "" []]
  /\ parse_config repr_not_called
       [(PStr "images", PList [PDict [(PStr "istag", PStr ""); (PStr "from", PStr "")]])]
     = Ok [mkImageSpec ":latest" "" []].
Proof.
  split; reflexivity.
Qed.

Lemma tag_and_source_must_be_strings_witness :
  parse_config repr_not_called [(PStr "images", PDict [(PStr "app", PInt 5)])]
  = Raise (ValueError "keys and values in 'images' must be a of type 'string'")
  /\ parse_config repr_not_called
       [(PStr "images",
         PList [PDict [(PStr "db", PStr "quay.io/org/db")];
                PDict [(PStr "istag", PStr "app"); (PStr "from", PInt 5)]])]
     = Raise (ValueError "'istag' and 'from' must be a of type 'string'")
  /\ parse_config repr_not_called
       [(PStr "images", PList [PDict [(PStr "app", PList [])]])]
     = Raise (ValueError "'istag' and 'from' must be a of type 'string'").
Proof.
  destruct (tag_and_source_must_be_strings repr_not_called) as (Hold & Hlong & Hshort & _).
  split; [|split].
  - apply (Hold [(PStr "app", PInt 5)] (PStr "app") (PInt 5)).
    + left. reflexivity.
    + right. reflexivity.
  - apply (Hlong [PDict [(PStr "db", PStr "quay.io/org/db")]] []
                 [mkImageSpec "db:latest" "quay.io/org/db" []]
                 [(PStr "istag", PStr "app"); (PStr "from", PInt 5)] "app" (PInt 5));
      reflexivity.
  - apply (Hshort [] [] [] "app" (PList [])); try reflexivity; discriminate.
Defined.


Lemma import_images_environment_gate_witness :
  import_images repr_not_called oc_succeeds
    [(PStr "images",
      PList [PDict [(PStr "istag", PStr "bar"); (PStr "from", PStr "docker.io/y/bar");
                    (PStr "envs", PList [PStr "stage"; PStr "prod"])]])]
    ["dev"] initial_state
  = (Ok tt,
     mkState [] []
       [mkLog INFO "Skipping import of image 'bar:latest', not enabled for this env"])
  /\ exists calls,
       oc_calls (snd (import_images repr_not_called oc_succeeds
                        [(PStr "images", PDict [(PStr "foo", PStr "quay.io/x/foo:1.0")])]
                        ["dev"] initial_state))
       = import_image_call "foo:latest" "quay.io/x/foo:1.0" :: calls.
Proof.
  split.
  - apply (proj1 (import_images_environment_gate repr_not_called oc_succeeds
             [(PStr "images",
               PList [PDict [(PStr "istag", PStr "bar");
                             (PStr "from", PStr "docker.io/y/bar");
                             (PStr "envs", PList [PStr "stage"; PStr "prod"])]])]
             ["dev"] [] []
             (mkImageSpec "bar:latest" "docker.io/y/bar" ["stage"; "prod"])
             initial_state initial_state eq_refl eq_refl)).
    + discriminate.
    + intros e [<-|[<-|[]]] [H|[]]; discriminate H.
  - apply (proj2 (import_images_environment_gate repr_not_called oc_succeeds
             [(PStr "images", PDict [(PStr "foo", PStr "quay.io/x/foo:1.0")])]
             ["dev"] [] []
             (mkImageSpec "foo:latest" "quay.io/x/foo:1.0" [])
             initial_state initial_state eq_refl eq_refl)).
    reflexivity.
Defined.

Lemma parse_istag_appends_latest_witness :
  _parse_istag repr_not_called (PStr "foo") = Ok (PStr "foo:latest")
  /\ _parse_istag repr_not_called (PStr "foo:1.0") = Ok (PStr "foo:1.0")
  /\ _parse_new_style repr_not_called [PDict [(PStr "foo", PStr "quay.io/x/foo")]]
     = Ok [mkImageSpec "foo:latest" "quay.io/x/foo" []].
Proof.
  split; [|split].
  - apply (proj1 (parse_istag_appends_latest repr_not_called "foo")).
    cbn. intros [H|[H|[H|[]]]]; discriminate H.
  - apply (proj1 (proj2 (parse_istag_appends_latest repr_not_called "foo:1.0"))).
    cbn. tauto.
  - destruct (proj2 (proj2 (parse_istag_appends_latest repr_not_called "foo")))
      as (n & Hn & _ & _ & Hshort).
    injection Hn as <-.
    apply Hshort; discriminate.
Defined.

Lemma config_error_before_any_command_witness :
  exists e,
    parse_config repr_not_called
      [(PStr "images",
        PList [PDict [(PStr "foo", PStr "quay.io/x/foo")];
               PDict [(PStr "istag", PStr "bar")]])]
    = Raise e
    /\ import_images repr_not_called oc_succeeds
         [(PStr "images",
           PList [PDict [(PStr "foo", PStr "quay.io/x/foo")];
                  PDict [(PStr "istag", PStr "bar")]])]
         [] initial_state
       = (Raise e, initial_state).
Proof.
  destruct (config_error_before_any_command repr_not_called oc_succeeds
              [(PStr "images",
                PList [PDict [(PStr "foo", PStr "quay.io/x/foo")];
                       PDict [(PStr "istag", PStr "bar")]])]
              [] initial_state) as (_ & Hentry & Honly).
  apply (Hentry [PDict [(PStr "foo", PStr "quay.io/x/foo")]]
                (PDict [(PStr "istag", PStr "bar")]) []
                (ValueError "Unknown syntax for 'images' section of config")).
  - reflexivity.
  - apply Honly; reflexivity.
Defined.

Lemma legacy_and_long_form_agree_witness :
  parse_config repr_not_called [(PStr "images", PDict [(PStr "foo", PStr "quay.io/x/foo:1.0")])]
  = parse_config repr_not_called
      [(PStr "images",
        PList [PDict [(PStr "istag", PStr "foo"); (PStr "from", PStr "quay.io/x/foo:1.0")]])].
Proof.
  apply (legacy_and_long_form_agree repr_not_called "foo" "quay.io/x/foo:1.0"
           [(PStr "istag", PStr "foo"); (PStr "from", PStr "quay.io/x/foo:1.0")]);
    reflexivity.
Defined.

(** * Further properties of the parsers *)

Section ParsingMore.

Variable py_repr : PyValue -> string.

Local Abbreviation parse_istag := (_parse_istag py_repr).
Local Abbreviation parse_new_entry := (_parse_new_style_entry py_repr).
Local Abbreviation parse_old_entry := (_parse_old_style_entry py_repr).
Local Abbreviation parse_new := (_parse_new_style py_repr).
Local Abbreviation parse_old := (_parse_old_style py_repr).

(** ** The legacy mapping *)

Lemma parse_old_entry_ok (k v : PyValue) (spec : ImageSpec) :
  parse_old_entry (k, v) = Ok spec ->
  exists tag src, k = PStr tag /\ v = PStr src /\ spec = image_of_pair (tag, src).
Proof.
  destruct k; try discriminate. destruct v; try discriminate.
  rewrite parse_old_entry_str. intros [= <-]. eauto.
Qed.

Lemma parse_old_pairs (pairs : list (string * string)) :
  parse_old (map str_item pairs) = Ok (map image_of_pair pairs).
Proof.
  induction pairs as [|[tag src] pairs IH]; [reflexivity|].
  cbn [map _parse_old_style]. unfold str_item at 1. cbn [fst snd].
  now rewrite parse_old_entry_str, IH.
Qed.

Lemma parse_old_ok_pairs (images : pydict) (specs : list ImageSpec) :
  parse_old images = Ok specs ->
  exists pairs, images = map str_item pairs /\ specs = map image_of_pair pairs.
Proof.
  revert specs. induction images as [|[k v] images IH]; intros specs H.
  - injection H as <-. now exists [].
  - cbn [_parse_old_style] in H.
    destruct (parse_old_entry (k, v)) as [spec|] eqn:E; [|discriminate].
    destruct (parse_old images) as [specs'|]; [|discriminate].
    cbn [rbind] in H. injection H as <-.
    destruct (parse_old_entry_ok _ _ _ E) as (tag & src & -> & -> & ->).
    destruct (IH specs' eq_refl) as (pairs & -> & ->).
    now exists ((tag, src) :: pairs).
Qed.

(** X1: the legacy mapping is parsed exactly when all its keys and values
    are strings; the result has one image per item, in the order of the
    items, with the normalized key as tag, the value as source and no
    environments. *)
Theorem legacy_mapping_parsed_iff_all_strings
        (images : pydict) (specs : list ImageSpec) :
  parse_old images = Ok specs
  <-> exists pairs, images = map str_item pairs /\ specs = map image_of_pair pairs.
Proof.
  split.
  - apply parse_old_ok_pairs.
  - intros (pairs & -> & ->). apply parse_old_pairs.
Qed.

(** ** The sequence *)

Lemma parse_new_ok_entries (images : list PyValue) (specs : list ImageSpec) :
  parse_new images = Ok specs ->
  Forall2 (fun img spec => parse_new_entry img = Ok spec) images specs.
Proof.
  revert specs. induction images as [|img images IH]; intros specs H.
  - injection H as <-. constructor.
  - cbn [_parse_new_style] in H.
    destruct (parse_new_entry img) as [spec|] eqn:E; [|discriminate].
    destruct (parse_new images) as [specs'|]; [|discriminate].
    cbn [rbind] in H. injection H as <-. constructor; auto.
Qed.

Lemma parse_new_single_ok (img : PyValue) (spec : ImageSpec) :
  parse_new [img] = Ok [spec] <-> parse_new_entry img = Ok spec.
Proof.
  cbn [_parse_new_style]. destruct (parse_new_entry img); cbn [rbind].
  - split; intros [= ->]; reflexivity.
  - split; discriminate.
Qed.

(** X3: the entries of the sequence are parsed independently of each other:
    the sequence is parsed exactly when every entry is parsed as a sequence
    of its own, and the result has the images of the entries in their
    order (two entries with the same tag give two images). *)
Theorem sequence_entries_parsed_independently
        (images : list PyValue) (specs : list ImageSpec) :
  parse_new images = Ok specs
  <-> Forall2 (fun img spec => parse_new [img] = Ok [spec]) images specs.
Proof.
  split.
  - intros H. apply parse_new_ok_entries in H.
    induction H; constructor; auto. now apply parse_new_single_ok.
  - induction 1 as [|img spec images specs E _ IH]; [reflexivity|].
    apply parse_new_single_ok in E.
    cbn [_parse_new_style]. now rewrite E, IH.
Qed.

Lemma parse_istag_has_colon (v : PyValue) (tag : string) :
  parse_istag v = Ok (PStr tag) -> str_in ":" tag = true.
Proof.
  unfold _parse_istag.
  destruct (py_str_in ":" v) as [[|]|] eqn:E; try discriminate.
  - intros [= ->]. cbn in E. congruence.
  - intros [= <-]. apply str_in_colon_latest.
Qed.

Lemma parse_new_entry_has_colon (img : PyValue) (spec : ImageSpec) :
  parse_new_entry img = Ok spec -> str_in ":" (istag spec) = true.
Proof.
  unfold _parse_new_style_entry. destruct img as [| | | |l|d]; try discriminate.
  match goal with |- rbind ?f _ = _ -> _ => set (fields := f) end.
  assert (F : forall t f e, fields = Ok (PStr t, f, e) -> str_in ":" t = true).
  { subst fields. intros t f e.
    destruct (_ && _).
    - destruct (dict_getitem "istag" d) as [v|]; [|discriminate]. cbn [rbind].
      destruct (parse_istag v) as [v'|] eqn:E; [|discriminate]. cbn [rbind].
      destruct (dict_getitem "from" d); [|discriminate]. cbn [rbind].
      intros [= -> _ _]. eapply parse_istag_has_colon; eassumption.
    - destruct (_ && _); [|discriminate].
      destruct d as [|[k v] d']; [discriminate|].
      destruct (parse_istag k) as [v'|] eqn:E; [|discriminate]. cbn [rbind].
      intros [= -> _ _]. eapply parse_istag_has_colon; eassumption. }
  destruct fields as [[[t f] e]|]; [|discriminate]. cbn [rbind].
  destruct t; try discriminate. destruct f; try discriminate.
  destruct (validate_list_of_strs "envs" "images" e); [|discriminate].
  cbn [rbind]. intros [= <-]. cbn [istag]. eapply F. reflexivity.
Qed.

(** X2: every image [parse_config] returns has a tag with a ":" in it,
    whatever the shape of the configuration. *)
Theorem parsed_tags_have_a_version (config : pydict) (specs : list ImageSpec) :
  parse_config py_repr config = Ok specs ->
  Forall (fun spec => In ":"%char (list_ascii_of_string (istag spec))) specs.
Proof.
  unfold parse_config. destruct (dict_has "images" config).
  - destruct (dict_getitem "images" config) as [[| | | |l|d]|]; try discriminate;
      try (intros [= <-]; constructor).
    + intros H. apply parse_new_ok_entries in H.
      induction H as [|img spec images specs' E _ IH]; constructor; auto.
      apply str_in_colon. eapply parse_new_entry_has_colon; eassumption.
    + intros H. apply parse_old_ok_pairs in H.
      destruct H as (pairs & _ & ->). apply Forall_forall.
      intros spec HIn. apply in_map_iff in HIn. destruct HIn as (p & <- & _).
      apply str_in_colon. apply normalized_has_colon.
  - intros [= <-]. constructor.
Qed.

(** ** Entries that are not of a known shape *)

(** X4: an entry that is not a dict is rejected; so is a dict that does not
    have exactly one item and lacks "istag" or "from" (the empty dict, or
    several tag: source items in one dict), and a dict with one item whose
    key is "istag", "from" or "envs". *)
Theorem entries_of_unknown_shape_are_rejected :
  (forall img, (forall d, img <> PDict d) ->
     parse_new_entry img
     = Raise (ValueError "entries in 'images' must be of type 'dict'"))
  /\ (forall d, List.length d <> 1%nat ->
        dict_has "istag" d = false \/ dict_has "from" d = false ->
        parse_new_entry (PDict d)
        = Raise (ValueError "Unknown syntax for 'images' section of config"))
  /\ (forall k v, reserved_key k = true ->
        parse_new_entry (PDict [(PStr k, v)])
        = Raise (ValueError "Unknown syntax for 'images' section of config")).
Proof.
  split; [|split].
  - intros img H. destruct img; try reflexivity. now elim (H d).
  - intros d Hlen Hkeys. unfold _parse_new_style_entry. cbn [forallb].
    apply Nat.eqb_neq in Hlen. rewrite Hlen.
    destruct Hkeys as [-> | ->]; rewrite ?andb_false_r; reflexivity.
  - intros k v Hk. unfold _parse_new_style_entry, reserved_key in *.
    cbn [List.length Nat.leb andb Nat.eqb forallb existsb dict_has fst str_eq_value orb]
      in *.
    rewrite !orb_false_r in *.
    rewrite (String.eqb_sym "istag"), (String.eqb_sym "from"), (String.eqb_sym "envs").
    destruct (k =? "istag")%string; [reflexivity|].
    destruct (k =? "from")%string; [reflexivity|].
    destruct (k =? "envs")%string; [reflexivity|discriminate].
Qed.

(** ** Short-style entries and the legacy mapping *)

Lemma reserved_key_false (k : string) :
  reserved_key k = false -> k <> "istag" /\ k <> "from" /\ k <> "envs".
Proof.
  unfold reserved_key. cbn [existsb]. rewrite !orb_false_r.
  intros H. apply orb_false_elim in H. destruct H as [H1 H].
  apply orb_false_elim in H. destruct H as [H2 H3].
  apply String.eqb_neq in H1, H2, H3. auto.
Qed.

Lemma parse_new_short_entries (pairs : list (string * string)) :
  Forall (fun p => reserved_key (fst p) = false) pairs ->
  parse_new (map short_entry pairs) = Ok (map image_of_pair pairs).
Proof.
  induction 1 as [|[tag src] pairs Hk _ IH]; [reflexivity|].
  cbn [map _parse_new_style]. unfold short_entry at 1, str_item. cbn [fst snd] in *.
  destruct (reserved_key_false _ Hk) as (n1 & n2 & n3).
  now rewrite parse_new_entry_short, IH.
Qed.

(** X5: a sequence of short-style entries, none of whose tags is "istag",
    "from" or "envs", is parsed to the same images as the legacy mapping
    with the same items in the same order. *)
Theorem short_entries_agree_with_legacy (pairs : list (string * string)) :
  Forall (fun p => reserved_key (fst p) = false) pairs ->
  parse_config py_repr [(PStr "images", PList (map short_entry pairs))]
  = parse_config py_repr [(PStr "images", PDict (map str_item pairs))]
  /\ parse_config py_repr [(PStr "images", PList (map short_entry pairs))]
     = Ok (map image_of_pair pairs).
Proof.
  intros H.
  change (parse_new (map short_entry pairs) = parse_old (map str_item pairs)
          /\ parse_new (map short_entry pairs) = Ok (map image_of_pair pairs)).
  rewrite parse_old_pairs. split; now apply parse_new_short_entries.
Qed.

(** ** A tag that is not a string, in a long-style entry *)

Lemma parse_new_entry_long_unfold (d : pydict) (v f : PyValue) :
  dict_get "istag" d = Some v ->
  dict_get "from" d = Some f ->
  parse_new_entry (PDict d)
  = rbind (parse_istag v) (fun t =>
      match t, f with
      | PStr t, PStr f =>
          rbind (validate_list_of_strs "envs" "images"
                   (dict_get_default "envs" (PList []) d))
                (fun es => Ok (mkImageSpec t f es))
      | _, _ => Raise (ValueError "'istag' and 'from' must be a of type 'string'")
      end).
Proof.
  intros Ht Hf. unfold _parse_new_style_entry.
  rewrite (dict_two_keys "istag" "from" d) by (eauto using dict_get_has || discriminate).
  cbn [forallb andb].
  rewrite (dict_get_has _ _ _ Ht), (dict_get_has _ _ _ Hf). cbn [andb].
  unfold dict_getitem. rewrite Ht, Hf. cbn [rbind].
  now destruct (parse_istag v).
Qed.

Lemma dict_has_get_some (k : string) (d : pydict) :
  dict_has k d = true -> exists v, dict_get k d = Some v.
Proof.
  unfold dict_has. induction d as [|[k' v'] d IH]; cbn [existsb dict_get fst].
  - discriminate.
  - destruct (str_eq_value k k'); [eauto | exact IH].
Qed.

(** X17: a long-style entry is read through its keys "istag", "from" and
    "envs" only: two dicts that have "istag" and "from" and agree on these
    three keys are parsed alike, whatever the order of their items and
    whatever other keys they have. *)
Theorem long_entry_read_through_its_three_keys (d1 d2 : pydict) :
  dict_has "istag" d1 = true ->
  dict_has "from" d1 = true ->
  (forall k, In k ["istag"; "from"; "envs"] -> dict_get k d1 = dict_get k d2) ->
  parse_new_entry (PDict d1) = parse_new_entry (PDict d2).
Proof.
  intros Ht Hf Heq.
  destruct (dict_has_get_some _ _ Ht) as [v Hv].
  destruct (dict_has_get_some _ _ Hf) as [f Hf'].
  assert (Hv2 : dict_get "istag" d2 = Some v)
    by (rewrite <- Heq; [exact Hv | cbn; auto]).
  assert (Hf2 : dict_get "from" d2 = Some f)
    by (rewrite <- Heq; [exact Hf' | cbn; auto]).
  rewrite (parse_new_entry_long_unfold d1 v f Hv Hf').
  rewrite (parse_new_entry_long_unfold d2 v f Hv2 Hf2).
  unfold dict_get_default. rewrite (Heq "envs") by (cbn; auto). reflexivity.
Qed.

(** X6: in a long-style entry [_parse_istag] runs before the test
    [isinstance(istag, str)].  A tag that is [None], a boolean or a number
    makes the entry raise [TypeError]; a tag that is a list with the
    element ":" is returned as it is and rejected with the [ValueError] of
    the test; a tag that is a list without the element ":" is formatted
    into a string, followed by ":latest", and the entry is accepted. *)
Theorem long_entry_with_tag_of_another_type
        (d : pydict) (v : PyValue) (src : string) (es : list string) :
  dict_get "istag" d = Some v ->
  dict_get "from" d = Some (PStr src) ->
  validate_list_of_strs "envs" "images" (dict_get_default "envs" (PList []) d) = Ok es ->
  (v = PNone \/ (exists b, v = PBool b) \/ (exists z, v = PInt z) ->
   exists msg, parse_new_entry (PDict d) = Raise (TypeError msg))
  /\ (forall l, v = PList l -> existsb (str_eq_value ":") l = true ->
       parse_new_entry (PDict d)
       = Raise (ValueError "'istag' and 'from' must be a of type 'string'"))
  /\ (forall l, v = PList l -> existsb (str_eq_value ":") l = false ->
       parse_new_entry (PDict d)
       = Ok (mkImageSpec (py_repr (PList l) ++ ":latest") src es)).
Proof.
  intros Ht Hf He. rewrite (parse_new_entry_long_unfold d v (PStr src) Ht Hf).
  split; [|split].
  - intros [-> | [[b ->] | [z ->]]]; cbn; eauto.
  - intros l -> Hl. unfold _parse_istag. cbn [py_str_in]. rewrite Hl. reflexivity.
  - intros l -> Hl. unfold _parse_istag. cbn [py_str_in]. rewrite Hl.
    cbn [rbind py_format]. now rewrite He.
Qed.

End ParsingMore.

(** * Further properties of the importer *)

Section ImportMore.

Variable py_repr : PyValue -> string.
Variable oc : list oc_call -> oc_call -> result unit.

Local Abbreviation do_import' := (do_import oc).
Local Abbreviation import_image' := (import_image oc).
Local Abbreviation import_images' := (import_images py_repr oc).

(** ** One import *)

(** X7: when "import-image" returns, or raises an exception that is not an
    [ErrorReturnCode], [do_import] returns or raises the same: it has run
    this one command and has written nothing but the record for a tag
    already in [imported_istags]. *)
Theorem do_import_passes_outcome_through
        (tag src : string) (st : state) (r : result unit) :
  oc (oc_calls st) (import_image_call tag src) = r ->
  (forall stderr, r <> Raise (ErrorReturnCode stderr)) ->
  do_import' tag src st
  = (r, mkState (imported_istags st)
                (oc_calls st ++ [import_image_call tag src])
                (log st ++ duplicate_warning tag st)).
Proof.
  intros Hr Hne. rewrite do_import_unfold, Hr. cbv zeta.
  destruct r as [[]|[]]; try reflexivity. now elim (Hne stderr).
Qed.

(** X8: [do_import] runs "import-image" and at most one more command, the
    re-tag; it runs the re-tag exactly when "import-image" raised an
    [ErrorReturnCode] whose text contains the conflict phrase. *)
Theorem do_import_retags_iff_conflict (tag src : string) (st : state) :
  let st' := snd (do_import' tag src st) in
  (oc_calls st' = (oc_calls st ++ [import_image_call tag src])%list
   \/ oc_calls st' = (oc_calls st ++ [import_image_call tag src; tag_call tag src])%list)
  /\ (oc_calls st' = (oc_calls st ++ [import_image_call tag src; tag_call tag src])%list
      <-> exists stderr,
            oc (oc_calls st) (import_image_call tag src) = Raise (ErrorReturnCode stderr)
            /\ str_in conflict_phrase stderr = true).
Proof.
  cbv zeta. rewrite do_import_unfold. cbv zeta.
  assert (N : (oc_calls st ++ [import_image_call tag src])%list
              <> (oc_calls st ++ [import_image_call tag src; tag_call tag src])%list).
  { intros H. apply app_inv_head in H. discriminate H. }
  destruct (oc (oc_calls st) (import_image_call tag src)) as [[]|e] eqn:E.
  - cbn [snd oc_calls]. split; [now left|].
    split; [intros H; now elim N | intros (s & H & _); discriminate H].
  - destruct e;
      try (cbn [snd oc_calls]; split; [now left|];
           split; [intros H; now elim N | intros (s & H & _); discriminate H]).
    destruct (str_in conflict_phrase stderr) eqn:P; cbn [snd oc_calls].
    + rewrite <- app_assoc. cbn [app]. split; [now right|].
      split; [intros _; eauto | reflexivity].
    + split; [now left|].
      split; [intros H; now elim N | intros (s & [= <-] & H); congruence].
Qed.

(** ** The loop *)

Lemma import_image_enabled (env_names : list string) (img : ImageSpec) :
  import_image' env_names img
  = if enabled env_names img
    then do_import' (istag img) (image_from img)
    else log_write INFO (log_message (skip_record img)).
Proof. reflexivity. Qed.

Lemma existsb_eqb_In (e : string) (l : list string) :
  existsb (String.eqb e) l = true <-> In e l.
Proof.
  rewrite existsb_exists. split.
  - intros (x & Hx & H). apply String.eqb_eq in H. now subst.
  - intros H. exists e. split; [exact H | apply String.eqb_refl].
Qed.

Lemma enabled_iff (env_names : list string) (img : ImageSpec) :
  enabled env_names img = true
  <-> envs img = [] \/ exists e, In e (envs img) /\ In e env_names.
Proof.
  unfold enabled. rewrite orb_true_iff, existsb_exists. split.
  - intros [H | (e & He & H)].
    + left. now destruct (envs img).
    + right. exists e. split; [exact He | now apply existsb_eqb_In].
  - intros [H | (e & He & H)].
    + left. now rewrite H.
    + right. exists e. split; [exact He | now apply existsb_eqb_In].
Qed.

(** X9: an image with an environment that is in [env_names] is imported:
    the body of the loop is [do_import] for its tag and source. *)
Theorem import_image_shared_environment
        (env_names : list string) (img : ImageSpec) (e : string) (st : state) :
  In e (envs img) -> In e env_names ->
  import_image' env_names img st = do_import' (istag img) (image_from img) st.
Proof.
  intros He Hn. rewrite import_image_enabled.
  assert (E : enabled env_names img = true) by (apply enabled_iff; eauto).
  now rewrite E.
Qed.

Lemma import_image_keeps_imported_istags
      (env_names : list string) (img : ImageSpec) (st : state) :
  imported_istags (snd (import_image' env_names img st)) = imported_istags st.
Proof.
  rewrite import_image_enabled. destruct (enabled env_names img).
  - apply do_import_keeps_imported_istags.
  - reflexivity.
Qed.

Lemma for_each_keeps_imported_istags
      (env_names : list string) (imgs : list ImageSpec) (st : state) :
  imported_istags (snd (for_each (import_image' env_names) imgs st))
  = imported_istags st.
Proof.
  revert st. induction imgs as [|img imgs IH]; intros st; [reflexivity|].
  cbn [for_each]. unfold bind.
  pose proof (import_image_keeps_imported_istags env_names img st) as H.
  destruct (import_image' env_names img st) as [[[]|e] st1]; cbn [snd] in *.
  - now rewrite IH.
  - exact H.
Qed.

(** X10: [import_images] leaves [imported_istags] as it finds it, whatever
    the configuration and whatever the commands do. *)
Theorem import_images_keeps_imported_istags
        (config : pydict) (env_names : list string) (st : state) :
  imported_istags (snd (import_images' config env_names st)) = imported_istags st.
Proof.
  unfold import_images, bind, lift.
  destruct (parse_config py_repr config); [|reflexivity].
  apply for_each_keeps_imported_istags.
Qed.

(** ** The commands of a run *)

Lemma do_import_calls_cases (tag src : string) (st : state) :
  oc_calls (snd (do_import' tag src st))
  = (oc_calls st ++ [import_image_call tag src])%list
  \/ oc_calls (snd (do_import' tag src st))
     = (oc_calls st ++ [import_image_call tag src; tag_call tag src])%list.
Proof.
  rewrite do_import_unfold. cbv zeta.
  destruct (oc (oc_calls st) (import_image_call tag src)) as [[]|[]]; auto.
  destruct (str_in conflict_phrase stderr); cbn [snd oc_calls]; auto.
  right. now rewrite <- app_assoc.
Qed.

Lemma for_each_calls_of_enabled
      (env_names : list string) (imgs : list ImageSpec) (st : state) :
  exists calls,
    oc_calls (snd (for_each (import_image' env_names) imgs st))
    = (oc_calls st ++ calls)%list
    /\ Forall (fun c => exists img,
                 In img imgs /\ enabled env_names img = true
                 /\ (c = import_image_call (istag img) (image_from img)
                     \/ c = tag_call (istag img) (image_from img))) calls.
Proof.
  revert st. induction imgs as [|img imgs IH]; intros st; cbn [for_each].
  - exists []. cbn. now rewrite app_nil_r.
  - unfold bind. rewrite import_image_enabled.
    destruct (enabled env_names img) eqn:En.
    + assert (Hown : exists c1,
                 oc_calls (snd (do_import' (istag img) (image_from img) st))
                 = (oc_calls st ++ c1)%list
                 /\ Forall (fun c => c = import_image_call (istag img) (image_from img)
                                     \/ c = tag_call (istag img) (image_from img)) c1).
      { destruct (do_import_calls_cases (istag img) (image_from img) st) as [E|E].
        - exists [import_image_call (istag img) (image_from img)].
          split; [exact E|]. constructor; [now left | constructor].
        - exists [import_image_call (istag img) (image_from img);
                  tag_call (istag img) (image_from img)].
          split; [exact E|].
          constructor; [now left | constructor; [now right | constructor]]. }
      destruct Hown as (c1 & E1 & F1).
      assert (F1' : Forall (fun c => exists img',
                 In img' (img :: imgs) /\ enabled env_names img' = true
                 /\ (c = import_image_call (istag img') (image_from img')
                     \/ c = tag_call (istag img') (image_from img'))) c1).
      { eapply Forall_impl; [|exact F1]. intros c Hc. exists img.
        split; [now left | auto]. }
      destruct (do_import' (istag img) (image_from img) st) as [[[]|e] st1];
        cbn [snd] in *.
      * destruct (IH st1) as (c2 & E2 & F2). exists (c1 ++ c2)%list.
        split; [now rewrite E2, E1, app_assoc|].
        apply Forall_app. split; [exact F1'|].
        eapply Forall_impl; [|exact F2].
        intros c (img' & HIn & He & Hc). exists img'. split; [now right | auto].
      * exists c1. auto.
    + cbn. destruct (IH (mkState (imported_istags st) (oc_calls st)
                           (log st ++ [mkLog INFO (log_message (skip_record img))])))
        as (c2 & E2 & F2).
      exists c2. split; [exact E2|].
      eapply Forall_impl; [|exact F2].
      intros c (img' & HIn & He & Hc). exists img'. split; [now right | auto].
Qed.

(** X11: every command [import_images] runs is the "import-image" or the
    re-tag of a parsed image that is enabled for [env_names]: no command is
    run for an image that is skipped, and none that is not in the
    configuration. *)
Theorem import_images_runs_commands_of_enabled_images_only
        (config : pydict) (env_names : list string)
        (specs : list ImageSpec) (st : state) :
  parse_config py_repr config = Ok specs ->
  exists calls,
    oc_calls (snd (import_images' config env_names st)) = (oc_calls st ++ calls)%list
    /\ Forall (fun c => exists img,
                 In img specs /\ enabled env_names img = true
                 /\ (c = import_image_call (istag img) (image_from img)
                     \/ c = tag_call (istag img) (image_from img))) calls.
Proof.
  intros H. unfold import_images, bind, lift. rewrite H.
  apply for_each_calls_of_enabled.
Qed.

Lemma for_each_imports_succeed (env_names : list string) :
  (forall before tag src, oc before (import_image_call tag src) = Ok tt) ->
  forall (imgs : list ImageSpec) (st : state),
    for_each (import_image' env_names) imgs st
    = (Ok tt,
       mkState (imported_istags st)
         (oc_calls st
          ++ map (fun img => import_image_call (istag img) (image_from img))
                 (filter (enabled env_names) imgs))
         (log st
          ++ flat_map (fun img => if enabled env_names img
                                  then duplicate_warning (istag img) st
                                  else [skip_record img]) imgs)).
Proof.
  intros Hoc. induction imgs as [|img imgs IH]; intros st.
  - cbn. rewrite !app_nil_r. now destruct st.
  - cbn [for_each filter flat_map]. unfold bind. rewrite import_image_enabled.
    destruct (enabled env_names img) eqn:En.
    + rewrite do_import_unfold, Hoc. cbv beta iota zeta. rewrite IH.
      cbn [imported_istags oc_calls log map]. unfold duplicate_warning.
      cbn [imported_istags]. now rewrite <- !app_assoc.
    + unfold log_write. cbv beta iota. rewrite IH.
      cbn [imported_istags oc_calls log]. unfold duplicate_warning.
      cbn [imported_istags]. now rewrite <- !app_assoc.
Qed.

(** X12: when every "import-image" succeeds, [import_images] returns after
    running one "import-image" for each enabled image, in the order of the
    configuration and with no re-tag; an image listed twice is imported
    twice.  It logs one INFO record for each image it skips. *)
Theorem import_images_when_imports_succeed
        (config : pydict) (env_names : list string)
        (specs : list ImageSpec) (st : state) :
  (forall before tag src, oc before (import_image_call tag src) = Ok tt) ->
  parse_config py_repr config = Ok specs ->
  import_images' config env_names st
  = (Ok tt,
     mkState (imported_istags st)
       (oc_calls st
        ++ map (fun img => import_image_call (istag img) (image_from img))
               (filter (enabled env_names) specs))
       (log st
        ++ flat_map (fun img => if enabled env_names img
                                then duplicate_warning (istag img) st
                                else [skip_record img]) specs)).
Proof.
  intros Hoc H. unfold import_images, bind, lift. rewrite H.
  now apply for_each_imports_succeed.
Qed.

(** X13: an exception of "import-image" that is not an [ErrorReturnCode]
    ends the run: [import_images] raises it, and the images after the one
    that was being imported are neither imported nor logged. *)
Theorem import_images_stops_at_first_exception
        (config : pydict) (env_names : list string)
        (pre post : list ImageSpec) (img : ImageSpec) (st st1 : state) (e : exn) :
  parse_config py_repr config = Ok (pre ++ img :: post)%list ->
  for_each (import_image' env_names) pre st = (Ok tt, st1) ->
  enabled env_names img = true ->
  oc (oc_calls st1) (import_image_call (istag img) (image_from img)) = Raise e ->
  (forall stderr, e <> ErrorReturnCode stderr) ->
  import_images' config env_names st
  = (Raise e,
     mkState (imported_istags st1)
       (oc_calls st1 ++ [import_image_call (istag img) (image_from img)])
       (log st1 ++ duplicate_warning (istag img) st1)).
Proof.
  intros Hparse Hpre En Hoc Hne.
  unfold import_images, bind at 1, lift. rewrite Hparse.
  rewrite for_each_append, Hpre. cbn [for_each]. unfold bind.
  rewrite import_image_enabled, En, do_import_unfold, Hoc. cbv zeta.
  destruct e; try reflexivity. now elim (Hne stderr).
Qed.

(** X14: when no parsed image is enabled for [env_names], [import_images]
    runs no command, whatever the commands would do; it logs one INFO
    record for each image and returns. *)
Theorem import_images_nothing_enabled
        (config : pydict) (env_names : list string)
        (specs : list ImageSpec) (st : state) :
  parse_config py_repr config = Ok specs ->
  Forall (fun img => enabled env_names img = false) specs ->
  import_images' config env_names st
  = (Ok tt,
     mkState (imported_istags st) (oc_calls st) (log st ++ map skip_record specs)).
Proof.
  intros Hparse Hall. unfold import_images, bind, lift. rewrite Hparse.
  clear Hparse. revert st.
  induction Hall as [|img imgs En _ IH]; intros st.
  - cbn. rewrite app_nil_r. now destruct st.
  - cbn [for_each map]. unfold bind. rewrite import_image_enabled, En.
    unfold log_write. cbv beta iota. rewrite IH. cbn [imported_istags oc_calls log].
    now rewrite <- app_assoc.
Qed.

Lemma for_each_returns (env_names : list string) :
  (forall before tag src e,
      oc before (import_image_call tag src) = Raise e ->
      exists stderr, e = ErrorReturnCode stderr) ->
  (forall before tag src, oc before (tag_call tag src) = Ok tt) ->
  forall (imgs : list ImageSpec) (st : state),
    fst (for_each (import_image' env_names) imgs st) = Ok tt.
Proof.
  intros Himport Htag. induction imgs as [|img imgs IH]; intros st; [reflexivity|].
  cbn [for_each]. unfold bind.
  assert (B : fst (import_image' env_names img st) = Ok tt).
  { rewrite import_image_enabled. destruct (enabled env_names img); [|reflexivity].
    rewrite do_import_unfold. cbv zeta.
    destruct (oc (oc_calls st) (import_image_call (istag img) (image_from img)))
      as [[]|e] eqn:E; [reflexivity|].
    destruct (Himport _ _ _ _ E) as [stderr ->].
    destruct (str_in conflict_phrase stderr); [|reflexivity].
    cbn [fst]. apply Htag. }
  destruct (import_image' env_names img st) as [[[]|e] st1]; cbn [fst] in B.
  - apply IH.
  - discriminate B.
Qed.

(** X15: when "import-image" raises nothing but [ErrorReturnCode] and the
    re-tag succeeds, [import_images] returns for every configuration that
    is parsed: a failed import does not end the run, the images after it
    are still processed. *)
Theorem import_images_survives_failed_imports
        (config : pydict) (env_names : list string)
        (specs : list ImageSpec) (st : state) :
  (forall before tag src e,
      oc before (import_image_call tag src) = Raise e ->
      exists stderr, e = ErrorReturnCode stderr) ->
  (forall before tag src, oc before (tag_call tag src) = Ok tt) ->
  parse_config py_repr config = Ok specs ->
  fst (import_images' config env_names st) = Ok tt.
Proof.
  intros Himport Htag Hparse. unfold import_images, bind, lift. rewrite Hparse.
  now apply for_each_returns.
Qed.

(** X16: when the configuration has no images section, or one that is an
    empty mapping or an empty sequence, [import_images] returns and leaves
    the state as it was. *)
Theorem import_images_without_images
        (config : pydict) (env_names : list string) (st : state) :
  dict_has "images" config = false
  \/ dict_get "images" config = Some (PDict [])
  \/ dict_get "images" config = Some (PList []) ->
  parse_config py_repr config = Ok []
  /\ import_images' config env_names st = (Ok tt, st).
Proof.
  intros H.
  assert (P : parse_config py_repr config = Ok []).
  { unfold parse_config, dict_getitem. destruct H as [H | [H | H]].
    - now rewrite H.
    - now rewrite (dict_get_has _ _ _ H), H.
    - now rewrite (dict_get_has _ _ _ H), H. }
  split; [exact P|]. unfold import_images, bind, lift. now rewrite P.
Qed.

End ImportMore.

(** ** Closed examples of the further properties *)

Lemma legacy_mapping_parsed_iff_all_strings_witness :
  _parse_old_style repr_not_called
    [(PStr "foo", PStr "quay.io/x/foo:1.0"); (PStr "bar:2", PStr "docker.io/y/bar")]
  = Ok [mkImageSpec "foo:latest" "quay.io/x/foo:1.0" [];
        mkImageSpec "bar:2" "docker.io/y/bar" []].
Proof.
  apply (proj2 (legacy_mapping_parsed_iff_all_strings repr_not_called _ _)).
  exists [("foo", "quay.io/x/foo:1.0"); ("bar:2", "docker.io/y/bar")].
  split; reflexivity.
Defined.

Lemma parsed_tags_have_a_version_witness :
  Forall (fun spec => In ":"%char (list_ascii_of_string (istag spec)))
    [mkImageSpec "foo:latest" "quay.io/x/foo:1.0" []; mkImageSpec "bar:2" "b" []].
Proof.
  apply (parsed_tags_have_a_version repr_not_called
           [(PStr "images",
             PList [PDict [(PStr "foo", PStr "quay.io/x/foo:1.0")];
                    PDict [(PStr "istag", PStr "bar:2"); (PStr "from", PStr "b")]])]).
  reflexivity.
Defined.

Lemma sequence_entries_parsed_independently_witness :
  _parse_new_style repr_not_called
    [PDict [(PStr "foo", PStr "quay.io/x/foo:1.0")];
     PDict [(PStr "istag", PStr "bar:2"); (PStr "from", PStr "b");
            (PStr "envs", PList [PStr "prod"])]]
  = Ok [mkImageSpec "foo:latest" "quay.io/x/foo:1.0" [];
        mkImageSpec "bar:2" "b" ["prod"]].
Proof.
  apply (proj2 (sequence_entries_parsed_independently repr_not_called _ _)).
  constructor; [reflexivity|]. constructor; [reflexivity|]. constructor.
Defined.

Lemma entries_of_unknown_shape_are_rejected_witness :
  _parse_new_style_entry repr_not_called (PStr "foo")
  = Raise (ValueError "entries in 'images' must be of type 'dict'")
  /\ _parse_new_style_entry repr_not_called
       (PDict [(PStr "foo", PStr "a"); (PStr "bar", PStr "b")])
     = Raise (ValueError "Unknown syntax for 'images' section of config")
  /\ _parse_new_style_entry repr_not_called (PDict [(PStr "from", PStr "a")])
     = Raise (ValueError "Unknown syntax for 'images' section of config").
Proof.
  destruct (entries_of_unknown_shape_are_rejected repr_not_called)
    as (Hdict & Hkeys & Hreserved).
  split; [|split].
  - apply Hdict. intros d; discriminate.
  - apply Hkeys; [discriminate | left; reflexivity].
  - apply Hreserved. reflexivity.
Defined.

Lemma short_entries_agree_with_legacy_witness :
  parse_config repr_not_called
    [(PStr "images", PList [PDict [(PStr "foo", PStr "a")]; PDict [(PStr "bar:2", PStr "b")]])]
  = parse_config repr_not_called
      [(PStr "images", PDict [(PStr "foo", PStr "a"); (PStr "bar:2", PStr "b")])].
Proof.
  apply (short_entries_agree_with_legacy repr_not_called [("foo", "a"); ("bar:2", "b")]).
  constructor; [reflexivity|]. constructor; [reflexivity|]. constructor.
Defined.

Lemma long_entry_with_tag_of_another_type_witness :
  (exists msg,
      _parse_new_style_entry repr_of_app_list
        (PDict [(PStr "istag", PInt 5); (PStr "from", PStr "quay.io/x/app")])
      = Raise (TypeError msg))
  /\ _parse_new_style_entry repr_of_app_list
       (PDict [(PStr "istag", PList [PStr ":"]); (PStr "from", PStr "quay.io/x/app")])
     = Raise (ValueError "'istag' and 'from' must be a of type 'string'")
  /\ _parse_new_style_entry repr_of_app_list
       (PDict [(PStr "istag", PList [PStr "app"]); (PStr "from", PStr "quay.io/x/app")])
     = Ok (mkImageSpec "['app']:latest" "quay.io/x/app" []).
Proof.
  split; [|split].
  - apply (proj1 (long_entry_with_tag_of_another_type repr_of_app_list
             [(PStr "istag", PInt 5); (PStr "from", PStr "quay.io/x/app")]
             (PInt 5) "quay.io/x/app" [] eq_refl eq_refl eq_refl)).
    right; right. now exists 5%Z.
  - apply (proj1 (proj2 (long_entry_with_tag_of_another_type repr_of_app_list
             [(PStr "istag", PList [PStr ":"]); (PStr "from", PStr "quay.io/x/app")]
             (PList [PStr ":"]) "quay.io/x/app" [] eq_refl eq_refl eq_refl))
             [PStr ":"]); reflexivity.
  - apply (proj2 (proj2 (long_entry_with_tag_of_another_type repr_of_app_list
             [(PStr "istag", PList [PStr "app"]); (PStr "from", PStr "quay.io/x/app")]
             (PList [PStr "app"]) "quay.io/x/app" [] eq_refl eq_refl eq_refl))
             [PStr "app"]); reflexivity.
Defined.

Lemma do_import_passes_outcome_through_witness :
  do_import oc_succeeds "app:latest" "quay.io/org/app:1.0" initial_state
  = (Ok tt, mkState [] [import_image_call "app:latest" "quay.io/org/app:1.0"] [])
  /\ do_import oc_times_out "app:latest" "quay.io/org/app:1.0" initial_state
     = (Raise (PyException "TimeoutException"),
        mkState [] [import_image_call "app:latest" "quay.io/org/app:1.0"] []).
Proof.
  split.
  - apply (do_import_passes_outcome_through oc_succeeds
             "app:latest" "quay.io/org/app:1.0" initial_state (Ok tt) eq_refl).
    intros stderr; discriminate.
  - apply (do_import_passes_outcome_through oc_times_out
             "app:latest" "quay.io/org/app:1.0" initial_state
             (Raise (PyException "TimeoutException")) eq_refl).
    intros stderr; discriminate.
Defined.

Lemma do_import_retags_iff_conflict_witness :
  oc_calls (snd (do_import oc_source_conflict "app:latest" "quay.io/org/app:1.0"
                           initial_state))
  = [import_image_call "app:latest" "quay.io/org/app:1.0";
     tag_call "app:latest" "quay.io/org/app:1.0"].
Proof.
  apply (proj2 (proj2 (do_import_retags_iff_conflict oc_source_conflict
                         "app:latest" "quay.io/org/app:1.0" initial_state))).
  exists "error: the tag already points to another source; use the 'tag' command if you want to change the source".
  split; [reflexivity | vm_compute; reflexivity].
Defined.

Lemma import_image_shared_environment_witness :
  import_image oc_succeeds ["prod"]
    (mkImageSpec "bar:latest" "docker.io/y/bar" ["stage"; "prod"]) initial_state
  = do_import oc_succeeds "bar:latest" "docker.io/y/bar" initial_state.
Proof.
  apply (import_image_shared_environment oc_succeeds ["prod"]
           (mkImageSpec "bar:latest" "docker.io/y/bar" ["stage"; "prod"]) "prod").
  - right; left; reflexivity.
  - left; reflexivity.
Defined.

Lemma import_images_runs_commands_of_enabled_images_only_witness :
  exists calls,
    oc_calls (snd (import_images repr_not_called oc_source_conflict
                     example_config ["dev"] initial_state))
    = calls
    /\ Forall (fun c => exists img,
                 In img example_images /\ enabled ["dev"] img = true
                 /\ (c = import_image_call (istag img) (image_from img)
                     \/ c = tag_call (istag img) (image_from img))) calls.
Proof.
  exact (import_images_runs_commands_of_enabled_images_only
           repr_not_called oc_source_conflict example_config ["dev"]
           example_images initial_state eq_refl).
Defined.

Lemma import_images_when_imports_succeed_witness :
  import_images repr_not_called oc_succeeds example_config ["dev"] initial_state
  = (Ok tt,
     mkState []
       [import_image_call "foo:latest" "quay.io/x/foo:1.0"]
       [mkLog INFO "Skipping import of image 'bar:latest', not enabled for this env"]).
Proof.
  apply (import_images_when_imports_succeed repr_not_called oc_succeeds
           example_config ["dev"] example_images initial_state).
  - reflexivity.
  - reflexivity.
Defined.

Lemma import_images_stops_at_first_exception_witness :
  import_images repr_not_called oc_times_out example_config ["prod"] initial_state
  = (Raise (PyException "TimeoutException"),
     mkState [] [import_image_call "foo:latest" "quay.io/x/foo:1.0"] []).
Proof.
  apply (import_images_stops_at_first_exception repr_not_called oc_times_out
           example_config ["prod"] []
           [mkImageSpec "bar:latest" "docker.io/y/bar" ["prod"]]
           (mkImageSpec "foo:latest" "quay.io/x/foo:1.0" [])
           initial_state initial_state (PyException "TimeoutException")).
  - reflexivity.
  - reflexivity.
  - reflexivity.
  - reflexivity.
  - intros stderr; discriminate.
Defined.

Lemma import_images_nothing_enabled_witness :
  import_images repr_not_called oc_unreachable
    [(PStr "images",
      PList [PDict [(PStr "istag", PStr "bar"); (PStr "from", PStr "docker.io/y/bar");
                    (PStr "envs", PList [PStr "prod"])]])]
    ["dev"] initial_state
  = (Ok tt,
     mkState [] []
       [mkLog INFO "Skipping import of image 'bar:latest', not enabled for this env"]).
Proof.
  apply (import_images_nothing_enabled repr_not_called oc_unreachable
           [(PStr "images",
             PList [PDict [(PStr "istag", PStr "bar");
                           (PStr "from", PStr "docker.io/y/bar");
                           (PStr "envs", PList [PStr "prod"])]])]
           ["dev"] [mkImageSpec "bar:latest" "docker.io/y/bar" ["prod"]] initial_state).
  - reflexivity.
  - constructor; [reflexivity | constructor].
Defined.

Lemma import_images_survives_failed_imports_witness :
  fst (import_images repr_not_called oc_source_conflict example_config ["prod"]
         initial_state)
  = Ok tt.
Proof.
  apply (import_images_survives_failed_imports repr_not_called oc_source_conflict
           example_config ["prod"] example_images initial_state).
  - intros before tag src e H. cbn in H. injection H as <-. eauto.
  - reflexivity.
  - reflexivity.
Defined.

Lemma import_images_without_images_witness :
  import_images repr_not_called oc_unreachable
    [(PStr "secrets", PList [])] ["prod"] initial_state
  = (Ok tt, initial_state)
  /\ import_images repr_not_called oc_unreachable
       [(PStr "images", PDict [])] ["prod"] initial_state
     = (Ok tt, initial_state).
Proof.
  split.
  - apply (import_images_without_images repr_not_called oc_unreachable
             [(PStr "secrets", PList [])] ["prod"] initial_state).
    left; reflexivity.
  - apply (import_images_without_images repr_not_called oc_unreachable
             [(PStr "images", PDict [])] ["prod"] initial_state).
    right; left; reflexivity.
Defined.

Lemma long_entry_read_through_its_three_keys_witness :
  _parse_new_style_entry repr_not_called
    (PDict [(PStr "istag", PStr "bar"); (PStr "from", PStr "docker.io/y/bar");
            (PStr "envs", PList [PStr "prod"])])
  = _parse_new_style_entry repr_not_called
      (PDict [(PStr "comment", PInt 1); (PStr "envs", PList [PStr "prod"]);
              (PStr "from", PStr "docker.io/y/bar"); (PStr "istag", PStr "bar")]).
Proof.
  apply (long_entry_read_through_its_three_keys repr_not_called).
  - reflexivity.
  - reflexivity.
  - intros k [<-|[<-|[<-|[]]]]; reflexivity.
Defined.
